(** * Annotation capture, coordinate projection and PDF export

    A shallow embedding of [src/components/Testing.tsx] (the [PDFViewer]
    component): the annotation model, the pointer handlers that commit
    annotations, [hexToRgb], [transformCoordinates] and
    [downloadAnnotatedPDF].

    JavaScript numbers are IEEE-754 binary64 values; they are modelled by
    Rocq's primitive [float], whose operations are exactly the binary64
    operations with round-to-nearest-even, so every arithmetic expression of
    the source is transcribed operator by operator. *)

From Stdlib Require Import ZArith List String Ascii Bool Lia Floats.
Import ListNotations.

Set Warnings "-inexact-float".

Local Open Scope float_scope.

(** ** JavaScript numbers *)

Module JS.

(** [a > b] on numbers: false as soon as one side is [NaN]. *)
Definition gt (a b : float) : bool := b <? a.

(** [Math.abs]. *)
Definition Math_abs (a : float) : float := abs a.

(** [x] is the negative zero ([Object.is(x, -0)]). *)
Definition is_neg_zero (a : float) : bool := is_zero a && (1 / a <? 0).

(** [Math.min] of two numbers: [NaN] if either is [NaN], the smaller one
    otherwise, [-0] being smaller than [+0]. *)
Definition Math_min (a b : float) : float :=
  if is_nan a || is_nan b then nan
  else if a <? b then a
  else if b <? a then b
  else if is_neg_zero a then a else b.

(** The Number value of a mathematical integer (round to nearest, ties to
    even). *)
Definition of_Z (n : Z) : float := SF2Prim (binary_normalize prec emax n 0 false).

End JS.

(** ** Classes of binary64 values *)

(** Neither [NaN] nor an infinity. *)
Definition SFfinite (v : spec_float) : bool :=
  match v with
  | S754_zero _ | S754_finite _ _ _ => true
  | S754_infinity _ | S754_nan => false
  end.

(** One of the two zeros. *)
Definition SFzero (v : spec_float) : bool :=
  match v with S754_zero _ => true | _ => false end.

(** A positive number other than [Infinity]. *)
Definition positive_finite (v : float) : bool := (0 <? v) && (v <? infinity).

(** ** Data model *)

(** [type Point = { x: number; y: number }] *)
Record Point : Type := mkPoint { x : float; y : float }.

(** ** The coordinate projector: [transformCoordinates] *)

(** The pair [(scaledWidth, scaledHeight)] after the aspect-ratio
    adjustment (lines 228-239). *)
Definition scaledSize (overlayWidth overlayHeight pdfWidth pdfHeight : float)
  : float * float :=
  let overlayAspectRatio := overlayWidth / overlayHeight in
  let pdfAspectRatio := pdfWidth / pdfHeight in
  let scaledWidth := overlayWidth in
  let scaledHeight := overlayHeight in
  if JS.gt overlayAspectRatio pdfAspectRatio
  then (overlayHeight * pdfAspectRatio, scaledHeight)
  else (scaledWidth, overlayWidth / pdfAspectRatio).

Definition scaledWidth (overlayWidth overlayHeight pdfWidth pdfHeight : float) : float :=
  fst (scaledSize overlayWidth overlayHeight pdfWidth pdfHeight).

Definition scaledHeight (overlayWidth overlayHeight pdfWidth pdfHeight : float) : float :=
  snd (scaledSize overlayWidth overlayHeight pdfWidth pdfHeight).

(** [offsetX] and [offsetY] (lines 242-243). *)
Definition offsetX (overlayWidth overlayHeight pdfWidth pdfHeight : float) : float :=
  (overlayWidth - scaledWidth overlayWidth overlayHeight pdfWidth pdfHeight) / 2.

Definition offsetY (overlayWidth overlayHeight pdfWidth pdfHeight : float) : float :=
  (overlayHeight - scaledHeight overlayWidth overlayHeight pdfWidth pdfHeight) / 2.

(** [transformCoordinates(point, overlayWidth, overlayHeight, pdfWidth,
    pdfHeight, scale = 1)]; an omitted [scale] is [None]. *)
Definition transformCoordinates (point : Point)
    (overlayWidth overlayHeight pdfWidth pdfHeight : float)
    (scale : option float) : Point :=
  let scale := match scale with Some s => s | None => 1 end in
  let scaledWidth := scaledWidth overlayWidth overlayHeight pdfWidth pdfHeight in
  let scaledHeight := scaledHeight overlayWidth overlayHeight pdfWidth pdfHeight in
  let offsetX := (overlayWidth - scaledWidth) / 2 in
  let offsetY := (overlayHeight - scaledHeight) / 2 in
  let adjustedX := x point - offsetX in
  let adjustedY := y point - offsetY in
  {| x := (adjustedX / scaledWidth) * pdfWidth * scale;
     y := pdfHeight - (adjustedY / scaledHeight) * pdfHeight * scale |}.

(** The letterbox algorithm as section 4.2 of the specification words it,
    step by step; it is compared with [transformCoordinates] below. *)
Module LetterboxSpec.

Record Projection : Type := mkProjection {
    renderedWidth : float;
    renderedHeight : float;
    centerX : float;
    centerY : float;
    outX : float;
    outY : float
  }.

Definition project (px py viewportWidth viewportHeight documentWidth documentHeight : float)
      (scale : option float) : Projection :=
    let k := match scale with Some s => s | None => 1 end in
    let viewportAspect := viewportWidth / viewportHeight in
    let documentAspect := documentWidth / documentHeight in
    let wider := JS.gt viewportAspect documentAspect in
    let rw := if wider then viewportHeight * documentAspect else viewportWidth in
    let rh := if wider then viewportHeight else viewportWidth / documentAspect in
    let ox := (viewportWidth - rw) / 2 in
    let oy := (viewportHeight - rh) / 2 in
    let adjustedX := px - ox in
    let adjustedY := py - oy in
    {| renderedWidth := rw;
       renderedHeight := rh;
       centerX := ox;
       centerY := oy;
       outX := (adjustedX / rw) * documentWidth * k;
       outY := documentHeight - (adjustedY / rh) * documentHeight * k |}.

End LetterboxSpec.

(** ** Strings and colours: [hexToRgb] *)

Local Open Scope string_scope.

Module JSString.

(** [s.replace(c, '')] for a one-character pattern [c]: the first
    occurrence of [c] is removed. *)
Fixpoint remove_first (c : ascii) (s : string) : string :=
  match s with
  | EmptyString => EmptyString
  | String d s' => if Ascii.eqb d c then s' else String d (remove_first c s')
  end.

(** [s.substring(a, b)] for non-negative integer indices: both are clamped
    to the length and swapped when [a > b]. *)
Definition substring (a b : nat) (s : string) : string :=
  let lo := Nat.min a b in
  let hi := Nat.max a b in
  String.substring lo (hi - lo) s.

(** White space stripped by [parseInt] (code units below 256). *)
Definition is_white_space (c : ascii) : bool :=
  let n := nat_of_ascii c in
  ((9 <=? n) && (n <=? 13) || (n =? 32) || (n =? 160))%nat.

Fixpoint trim_start (s : string) : string :=
  match s with
  | EmptyString => EmptyString
  | String c s' => if is_white_space c then trim_start s' else s
  end.

(** The value of a radix-16 digit. *)
Definition hex_digit (c : ascii) : option Z :=
  let n := Z.of_nat (nat_of_ascii c) in
  if ((48 <=? n) && (n <=? 57))%Z then Some (n - 48)%Z
  else if ((97 <=? n) && (n <=? 102))%Z then Some (n - 87)%Z
  else if ((65 <=? n) && (n <=? 70))%Z then Some (n - 55)%Z
  else None.

(** The value of the longest prefix of radix-16 digits, [None] when that
    prefix is empty. *)
Fixpoint hex_prefix (s : string) (acc : option Z) : option Z :=
  match s with
  | EmptyString => acc
  | String c s' =>
      match hex_digit c with
      | Some d =>
          hex_prefix s' (Some (16 * match acc with Some a => a | None => 0 end + d)%Z)
      | None => acc
      end
  end.

(** [parseInt(s, 16)]: leading white space, an optional sign and an
    optional [0x] / [0X] prefix are skipped; no digit gives [NaN]. *)
Definition parseInt16 (s : string) : float :=
  let s := trim_start s in
  let '(negative, s) :=
    match s with
    | String "-" s' => (true, s')
    | String "+" s' => (false, s')
    | _ => (false, s)
    end in
  let s :=
    match s with
    | String "0" (String "x" s') => s'
    | String "0" (String "X" s') => s'
    | _ => s
    end in
  match hex_prefix s None with
  | None => nan
  | Some n => if negative then (- JS.of_Z n)%float else JS.of_Z n
  end.

End JSString.

(** The object [{ r, g, b }] returned by [hexToRgb]. *)
Record Rgb : Type := mkRgb { r : float; g : float; b : float }.

(** [hexToRgb] (lines 206-216). *)
Definition hexToRgb (hex : string) : Rgb :=
  let hex := JSString.remove_first "#" hex in
  {| r := JSString.parseInt16 (JSString.substring 0 2 hex) / 255;
     g := JSString.parseInt16 (JSString.substring 2 4 hex) / 255;
     b := JSString.parseInt16 (JSString.substring 4 6 hex) / 255 |}.

(** A canonical colour string: [#] followed by exactly six radix-16
    digits. *)
Definition is_hex_digit (c : ascii) : bool :=
  match JSString.hex_digit c with Some _ => true | None => false end.

Definition canonical_color (hex : string) : bool :=
  match hex with
  | String "#" (String r1 (String r2 (String g1 (String g2 (String b1 (String b2 EmptyString)))))) =>
      is_hex_digit r1 && is_hex_digit r2 && is_hex_digit g1 && is_hex_digit g2
      && is_hex_digit b1 && is_hex_digit b2
  | _ => false
  end.

(** The byte written by two radix-16 digits. *)
Definition byte_value (c1 c2 : ascii) : Z :=
  match JSString.hex_digit c1, JSString.hex_digit c2 with
  | Some d1, Some d2 => 16 * d1 + d2
  | _, _ => 0
  end.

(** ** The annotation model *)

Local Open Scope list_scope.

(** [type Annotation = HighlightAnnotation | DrawingAnnotation |
    TextAnnotation], the [type] tag being the constructor. *)
Inductive Annotation : Type :=
| Highlight (page : float) (start end_ : Point) (color : string)
| Draw (page : float) (points : list Point) (color : string) (width : float)
| Text (page : float) (position : Point) (text : string) (color : string).

Definition page (a : Annotation) : float :=
  match a with
  | Highlight p _ _ _ => p
  | Draw p _ _ _ => p
  | Text p _ _ _ => p
  end.

(** ** The capture engine: component state and handlers *)

Inductive Tool : Type := tool_select | tool_draw | tool_highlight | tool_text.

Definition Tool_eqb (t u : Tool) : bool :=
  match t, u with
  | tool_select, tool_select => true
  | tool_draw, tool_draw => true
  | tool_highlight, tool_highlight => true
  | tool_text, tool_text => true
  | _, _ => false
  end.

(** The rectangle reported by [getBoundingClientRect()]. *)
Record DOMRect : Type := mkDOMRect {
  rect_width : float;
  rect_height : float;
  rect_top : float;
  rect_left : float
}.

(** The [useState] cells of [PDFViewer]; a pair stands for the objects
    [{start, end}] and [{start, current}], [None] for [null]. *)
Record State : Type := mkState {
  currentDrawing : list Point;
  currentHighlight : option (Point * Point);
  isDarkTheme : bool;
  currentTool : Tool;
  annotations : list Annotation;
  isDrawing : bool;
  currentPath : list Point;
  highlightInfo : option (Point * Point);
  annotationColor : string;
  isModalOpen : bool;
  modalText : string;
  modalPosition : option Point;
  overlayDimensions : DOMRect
}.

(** The initial values passed to [useState]. *)
Definition initialState : State :=
  {| currentDrawing := [];
     currentHighlight := None;
     isDarkTheme := false;
     currentTool := tool_highlight;
     annotations := [];
     isDrawing := false;
     currentPath := [];
     highlightInfo := None;
     annotationColor := "#FFFF00";
     isModalOpen := false;
     modalText := "";
     modalPosition := None;
     overlayDimensions :=
       {| rect_width := 0; rect_height := 0; rect_top := 0; rect_left := 0 |} |}.

(** The state setters. React accepts a new value or an updater applied to
    the pending value; every setter below takes the updater ([fun _ => v]
    for a plain value). *)
Definition setCurrentDrawing (update : list Point -> list Point) (s : State) : State :=
  {| currentDrawing := update (currentDrawing s);
     currentHighlight := currentHighlight s;
     isDarkTheme := isDarkTheme s;
     currentTool := currentTool s;
     annotations := annotations s;
     isDrawing := isDrawing s;
     currentPath := currentPath s;
     highlightInfo := highlightInfo s;
     annotationColor := annotationColor s;
     isModalOpen := isModalOpen s;
     modalText := modalText s;
     modalPosition := modalPosition s;
     overlayDimensions := overlayDimensions s |}.

Definition setCurrentHighlight (update : option (Point * Point) -> option (Point * Point)) (s : State) : State :=
  {| currentDrawing := currentDrawing s;
     currentHighlight := update (currentHighlight s);
     isDarkTheme := isDarkTheme s;
     currentTool := currentTool s;
     annotations := annotations s;
     isDrawing := isDrawing s;
     currentPath := currentPath s;
     highlightInfo := highlightInfo s;
     annotationColor := annotationColor s;
     isModalOpen := isModalOpen s;
     modalText := modalText s;
     modalPosition := modalPosition s;
     overlayDimensions := overlayDimensions s |}.

Definition setIsDarkTheme (update : bool -> bool) (s : State) : State :=
  {| currentDrawing := currentDrawing s;
     currentHighlight := currentHighlight s;
     isDarkTheme := update (isDarkTheme s);
     currentTool := currentTool s;
     annotations := annotations s;
     isDrawing := isDrawing s;
     currentPath := currentPath s;
     highlightInfo := highlightInfo s;
     annotationColor := annotationColor s;
     isModalOpen := isModalOpen s;
     modalText := modalText s;
     modalPosition := modalPosition s;
     overlayDimensions := overlayDimensions s |}.

Definition setCurrentTool (update : Tool -> Tool) (s : State) : State :=
  {| currentDrawing := currentDrawing s;
     currentHighlight := currentHighlight s;
     isDarkTheme := isDarkTheme s;
     currentTool := update (currentTool s);
     annotations := annotations s;
     isDrawing := isDrawing s;
     currentPath := currentPath s;
     highlightInfo := highlightInfo s;
     annotationColor := annotationColor s;
     isModalOpen := isModalOpen s;
     modalText := modalText s;
     modalPosition := modalPosition s;
     overlayDimensions := overlayDimensions s |}.

Definition setAnnotations (update : list Annotation -> list Annotation) (s : State) : State :=
  {| currentDrawing := currentDrawing s;
     currentHighlight := currentHighlight s;
     isDarkTheme := isDarkTheme s;
     currentTool := currentTool s;
     annotations := update (annotations s);
     isDrawing := isDrawing s;
     currentPath := currentPath s;
     highlightInfo := highlightInfo s;
     annotationColor := annotationColor s;
     isModalOpen := isModalOpen s;
     modalText := modalText s;
     modalPosition := modalPosition s;
     overlayDimensions := overlayDimensions s |}.

Definition setIsDrawing (update : bool -> bool) (s : State) : State :=
  {| currentDrawing := currentDrawing s;
     currentHighlight := currentHighlight s;
     isDarkTheme := isDarkTheme s;
     currentTool := currentTool s;
     annotations := annotations s;
     isDrawing := update (isDrawing s);
     currentPath := currentPath s;
     highlightInfo := highlightInfo s;
     annotationColor := annotationColor s;
     isModalOpen := isModalOpen s;
     modalText := modalText s;
     modalPosition := modalPosition s;
     overlayDimensions := overlayDimensions s |}.

Definition setCurrentPath (update : list Point -> list Point) (s : State) : State :=
  {| currentDrawing := currentDrawing s;
     currentHighlight := currentHighlight s;
     isDarkTheme := isDarkTheme s;
     currentTool := currentTool s;
     annotations := annotations s;
     isDrawing := isDrawing s;
     currentPath := update (currentPath s);
     highlightInfo := highlightInfo s;
     annotationColor := annotationColor s;
     isModalOpen := isModalOpen s;
     modalText := modalText s;
     modalPosition := modalPosition s;
     overlayDimensions := overlayDimensions s |}.

Definition setHighlightInfo (update : option (Point * Point) -> option (Point * Point)) (s : State) : State :=
  {| currentDrawing := currentDrawing s;
     currentHighlight := currentHighlight s;
     isDarkTheme := isDarkTheme s;
     currentTool := currentTool s;
     annotations := annotations s;
     isDrawing := isDrawing s;
     currentPath := currentPath s;
     highlightInfo := update (highlightInfo s);
     annotationColor := annotationColor s;
     isModalOpen := isModalOpen s;
     modalText := modalText s;
     modalPosition := modalPosition s;
     overlayDimensions := overlayDimensions s |}.

Definition setAnnotationColor (update : string -> string) (s : State) : State :=
  {| currentDrawing := currentDrawing s;
     currentHighlight := currentHighlight s;
     isDarkTheme := isDarkTheme s;
     currentTool := currentTool s;
     annotations := annotations s;
     isDrawing := isDrawing s;
     currentPath := currentPath s;
     highlightInfo := highlightInfo s;
     annotationColor := update (annotationColor s);
     isModalOpen := isModalOpen s;
     modalText := modalText s;
     modalPosition := modalPosition s;
     overlayDimensions := overlayDimensions s |}.

Definition setIsModalOpen (update : bool -> bool) (s : State) : State :=
  {| currentDrawing := currentDrawing s;
     currentHighlight := currentHighlight s;
     isDarkTheme := isDarkTheme s;
     currentTool := currentTool s;
     annotations := annotations s;
     isDrawing := isDrawing s;
     currentPath := currentPath s;
     highlightInfo := highlightInfo s;
     annotationColor := annotationColor s;
     isModalOpen := update (isModalOpen s);
     modalText := modalText s;
     modalPosition := modalPosition s;
     overlayDimensions := overlayDimensions s |}.

Definition setModalText (update : string -> string) (s : State) : State :=
  {| currentDrawing := currentDrawing s;
     currentHighlight := currentHighlight s;
     isDarkTheme := isDarkTheme s;
     currentTool := currentTool s;
     annotations := annotations s;
     isDrawing := isDrawing s;
     currentPath := currentPath s;
     highlightInfo := highlightInfo s;
     annotationColor := annotationColor s;
     isModalOpen := isModalOpen s;
     modalText := update (modalText s);
     modalPosition := modalPosition s;
     overlayDimensions := overlayDimensions s |}.

Definition setModalPosition (update : option Point -> option Point) (s : State) : State :=
  {| currentDrawing := currentDrawing s;
     currentHighlight := currentHighlight s;
     isDarkTheme := isDarkTheme s;
     currentTool := currentTool s;
     annotations := annotations s;
     isDrawing := isDrawing s;
     currentPath := currentPath s;
     highlightInfo := highlightInfo s;
     annotationColor := annotationColor s;
     isModalOpen := isModalOpen s;
     modalText := modalText s;
     modalPosition := update (modalPosition s);
     overlayDimensions := overlayDimensions s |}.

Definition setOverlayDimensions (update : DOMRect -> DOMRect) (s : State) : State :=
  {| currentDrawing := currentDrawing s;
     currentHighlight := currentHighlight s;
     isDarkTheme := isDarkTheme s;
     currentTool := currentTool s;
     annotations := annotations s;
     isDrawing := isDrawing s;
     currentPath := currentPath s;
     highlightInfo := highlightInfo s;
     annotationColor := annotationColor s;
     isModalOpen := isModalOpen s;
     modalText := modalText s;
     modalPosition := modalPosition s;
     overlayDimensions := update (overlayDimensions s) |}.
(** A React mouse event, as far as the handlers read it. *)
Record MouseEvent : Type := mkMouseEvent { clientX : float; clientY : float }.

(** The handlers are [useCallback] closures created by a render: what
    they read ([currentTool], [isDrawing], [currentPath], ...) are the
    values of that render, [closure] below, while the setters they call
    queue updates, applied here to the pending state [s]. The two differ as
    long as updates queued since the last render have not been rendered. *)

(** [handleMouseDown] (lines 105-131); [overlay] is
    [overlayRef.current?.getBoundingClientRect()]. *)
Definition handleMouseDown (overlay : option DOMRect) (e : MouseEvent)
    (closure s : State) : State :=
  match overlay with
  | None => s
  | Some rect =>
      let point := {| x := clientX e - rect_left rect; y := clientY e - rect_top rect |} in
      match currentTool closure with
      | tool_draw =>
          setCurrentDrawing (fun _ => [point])
            (setCurrentPath (fun _ => [point])
              (setIsDrawing (fun _ => true) s))
      | tool_highlight =>
          setCurrentHighlight (fun _ => Some (point, point))
            (setHighlightInfo (fun _ => Some (point, point)) s)
      | tool_text =>
          setIsModalOpen (fun _ => true)
            (setModalPosition (fun _ => Some point) s)
      | tool_select => s
      end
  end.

(** [handleMouseMove] (lines 133-153): the two conditions read the values
    of the render, the updaters act on the pending state. *)
Definition handleMouseMove (overlay : option DOMRect) (e : MouseEvent)
    (closure s : State) : State :=
  match overlay with
  | None => s
  | Some rect =>
      let point := {| x := clientX e - rect_left rect; y := clientY e - rect_top rect |} in
      let s1 :=
        if Tool_eqb (currentTool closure) tool_draw && isDrawing closure
        then setCurrentPath (fun prev => prev ++ [point])
               (setCurrentDrawing (fun prev => prev ++ [point]) s)
        else s in
      match Tool_eqb (currentTool closure) tool_highlight, highlightInfo closure with
      | true, Some _ =>
          setHighlightInfo
            (fun prev => match prev with
                         | Some (start, _) => Some (start, point)
                         | None => None
                         end)
            (setCurrentHighlight
               (fun prev => match prev with
                            | Some (start, _) => Some (start, point)
                            | None => None
                            end) s1)
      | _, _ => s1
      end
  end.

(** [handleMouseUp] (lines 155-184): the path, the corners and the colour
    of the committed annotation are those of the render; it is appended to
    the pending sequence. *)
Definition handleMouseUp (closure s : State) : State :=
  let s1 :=
    if Tool_eqb (currentTool closure) tool_draw && isDrawing closure
    then setCurrentPath (fun _ => [])
           (setIsDrawing (fun _ => false)
             (setAnnotations
                (fun prev => prev ++ [Draw 1 (currentPath closure) (annotationColor closure) 2])
                s))
    else s in
  match Tool_eqb (currentTool closure) tool_highlight, highlightInfo closure with
  | true, Some (start, current) =>
      setHighlightInfo (fun _ => None)
        (setAnnotations
           (fun prev => prev ++ [Highlight 1 start current (annotationColor closure)]) s1)
  | _, _ => s1
  end.

(** A string is truthy when it is not empty. *)
Definition truthy (t : string) : bool :=
  match t with EmptyString => false | String _ _ => true end.

(** [handleModalSubmit] (lines 186-202). *)
Definition handleModalSubmit (closure s : State) : State :=
  match truthy (modalText closure), modalPosition closure with
  | true, Some position =>
      setModalPosition (fun _ => None)
        (setModalText (fun _ => "")
          (setIsModalOpen (fun _ => false)
            (setAnnotations
               (fun prev =>
                  prev ++ [Text 1 position (modalText closure) (annotationColor closure)])
               s)))
  | _, _ => s
  end.

(** [updateOverlayDimensions] (lines 78-88); [iframe] is
    [iframeRef.current]'s bounding rectangle. *)
Definition updateOverlayDimensions (iframe : option DOMRect) (s : State) : State :=
  match iframe with
  | Some rect => setOverlayDimensions (fun _ => rect) s
  | None => s
  end.

(** What can happen to the component: the four pointer handlers wired on
    the overlay (lines 420-423) and the controls of the tool bar and of the
    text dialog. *)
Inductive Event : Type :=
| onMouseDown (overlay : option DOMRect) (e : MouseEvent)
| onMouseMove (overlay : option DOMRect) (e : MouseEvent)
| onMouseUp
| onMouseLeave
| onThemeToggle
| onToolClick (tool : Tool)
| onColorChange (value : string)
| onClearAll
| onModalTextChange (value : string)
| onModalCancel
| onModalAdd
| onResizeOrLoad (iframe : option DOMRect).

(** The handler of an event, created by the render [closure], run on the
    pending state [s]. *)
Definition handle (closure : State) (ev : Event) (s : State) : State :=
  match ev with
  | onMouseDown overlay e => handleMouseDown overlay e closure s
  | onMouseMove overlay e => handleMouseMove overlay e closure s
  | onMouseUp => handleMouseUp closure s
  | onMouseLeave => handleMouseUp closure s
  | onThemeToggle => setIsDarkTheme (fun _ => negb (isDarkTheme closure)) s
  | onToolClick tool => setCurrentTool (fun _ => tool) s
  | onColorChange value => setAnnotationColor (fun _ => value) s
  | onClearAll => setAnnotations (fun _ => []) s
  | onModalTextChange value => setModalText (fun _ => value) s
  | onModalCancel => setIsModalOpen (fun _ => false) s
  | onModalAdd => handleModalSubmit closure s
  | onResizeOrLoad iframe => updateOverlayDimensions iframe s
  end.

(** An event handled on a rendered state and rendered in turn before the
    next one: no update is pending when it arrives, and the result is the
    state of the next render. React renders so after a discrete event (a
    click, a pointer-down, a pointer-up, an input); for pointer moves and
    leaves, which it may render later, see [react] below. *)
Definition dispatch (s : State) (ev : Event) : State := handle s ev s.

(** The component between two renders: the state of the last render, read
    by the handlers, and the state the queued updates lead to. *)
Record Component : Type := mkComponent { rendered : State; pending : State }.

(** A component that has just rendered [s]. *)
Definition mounted (s : State) : Component := {| rendered := s; pending := s |}.

(** What happens to it: an event runs its handler, or React renders the
    pending state. *)
Inductive Step : Type :=
| fire (ev : Event)
| render.

Definition react (c : Component) (st : Step) : Component :=
  match st with
  | fire ev => {| rendered := rendered c; pending := handle (rendered c) ev (pending c) |}
  | render => {| rendered := pending c; pending := pending c |}
  end.

(** ** Failures, and the effects of an export *)

(** What a call can throw: the failure classes of section 7 of the
    specification, the [TypeError] of a property read on [undefined], and
    anything else a collaborator raises. *)
Inductive Error : Type :=
| FetchFailure
| ParseFailure
| InvalidGeometry
| SerializeFailure
| TypeError
| LibraryError (message : string).

(** The completion of a call: a value, or a thrown error. *)
Inductive result (A : Type) : Type :=
| Ok (a : A)
| Throw (e : Error).

Arguments Ok {A} a.
Arguments Throw {A} e.

(** What an export can leave behind outside the component: lines on the
    console and files handed to the browser for saving. *)
Record World : Type := mkWorld {
  console : list Error;
  downloads : list (string * list Byte.byte)
}.

(** Computations that read and write the [World] and may throw. *)
Definition M (A : Type) : Type := World -> result A * World.

Definition ret {A : Type} (a : A) : M A := fun w => (Ok a, w).

Definition bind {A B : Type} (m : M A) (k : A -> M B) : M B :=
  fun w =>
    match m w with
    | (Ok a, w') => k a w'
    | (Throw e, w') => (Throw e, w')
    end.

(** An awaited call of a collaborator, whose completion is given. *)
Definition lift {A : Type} (c : result A) : M A := fun w => (c, w).

(** [try { body } catch (error) { handler(error) }] *)
Definition try_catch {A : Type} (body : M A) (handler : Error -> M A) : M A :=
  fun w =>
    match body w with
    | (Ok a, w') => (Ok a, w')
    | (Throw e, w') => handler e w'
    end.

(** [console.error('Error downloading annotated PDF:', error)] *)
Definition console_error (error : Error) : M unit :=
  fun w => (Ok tt, {| console := console w ++ [error]; downloads := downloads w |}).

(** Lines 365-373: the bytes are wrapped in a [Blob] and saved through a
    temporary link whose [download] attribute is the file name. *)
Definition save_as (name : string) (pdfBytes : list Byte.byte) : M unit :=
  fun w => (Ok tt, {| console := console w; downloads := downloads w ++ [(name, pdfBytes)] |}).

Declare Scope M_scope.
Delimit Scope M_scope with M.
Notation "x <- m ;; k" := (bind m (fun x => k))
  (at level 61, m at next level, right associativity) : M_scope.

(** Sequencing of completions, for the synchronous part of the export. *)
Definition and_then {A B : Type} (c : result A) (k : A -> result B) : result B :=
  match c with
  | Ok a => k a
  | Throw e => Throw e
  end.

(** [for (const a of l) { s = f(a, s) }] where the body may throw. *)
Fixpoint forEach {A S : Type} (f : A -> S -> result S) (l : list A) (s : S) : result S :=
  match l with
  | [] => Ok s
  | a :: l' => and_then (f a s) (forEach f l')
  end.

(** ** The document library, as far as the export calls it *)

(** The colour object built by [rgb(red, green, blue)]. *)
Record Color : Type := rgb { red : float; green : float; blue : float }.

(** The drawing calls made on the page, with their option objects. *)
Inductive DrawOp : Type :=
| drawRectangle (rx ry rwidth rheight : float) (color : Color) (opacity : float)
| drawText (text : string) (tx ty size : float) (color : Color)
| drawLine (start end_ : Point) (thickness : float) (color : Color).

(** A page: its size and the drawing calls it has recorded, oldest first. *)
Record PDFPage : Type := mkPDFPage {
  page_width : float;
  page_height : float;
  content : list DrawOp
}.

Record PDFDocument : Type := mkPDFDocument { getPages : list PDFPage }.

(** The collaborators of one export: the mounted overlay (its
    [clientWidth] and [clientHeight], [None] when [overlayRef.current] is
    [null]), the completion of [fetch(pdfUrl)] followed by
    [arrayBuffer()], of [PDFDocument.load], of [pdfDoc.save()], and the
    error, if any, with which the library rejects a drawing call. *)
Record Env : Type := mkEnv {
  overlayRef : option (float * float);
  fetch_arrayBuffer : result (list Byte.byte);
  PDFDocument_load : list Byte.byte -> result PDFDocument;
  draw_rejected : PDFPage -> DrawOp -> option Error;
  PDFDocument_save : PDFDocument -> result (list Byte.byte)
}.

(** A drawing call on the page: it throws, or the page records it. *)
Definition page_draw (env : Env) (op : DrawOp) (pg : PDFPage) : result PDFPage :=
  match draw_rejected env pg op with
  | Some e => Throw e
  | None =>
      Ok {| page_width := page_width pg;
            page_height := page_height pg;
            content := content pg ++ [op] |}
  end.

(** ** The export engine: [downloadAnnotatedPDF] *)

Section ExportEngine.

Variable env : Env.
Variables overlayWidth overlayHeight pdfWidth pdfHeight scale : float.

(** The option object of [page.drawRectangle] (lines 300-307). *)
Definition highlightRectangle (start end_ : Point) (color : string) : DrawOp :=
  let color := hexToRgb color in
  let start := transformCoordinates start overlayWidth overlayHeight pdfWidth pdfHeight (Some scale) in
  let end_ := transformCoordinates end_ overlayWidth overlayHeight pdfWidth pdfHeight (Some scale) in
  drawRectangle
    (JS.Math_min (x start) (x end_))
    (JS.Math_min (y start) (y end_))
    (JS.Math_abs (x end_ - x start))
    (JS.Math_abs (y end_ - y start))
    (rgb (r color) (g color) (b color))
    0.35.

(** The call of [page.drawText] (lines 312-330). *)
Definition textCall (position : Point) (text : string) (color : string) : DrawOp :=
  let color := hexToRgb color in
  let position := transformCoordinates position overlayWidth overlayHeight pdfWidth pdfHeight (Some scale) in
  let textSize := (12 * pdfWidth) / overlayWidth in
  drawText text (x position) (y position) textSize (rgb (r color) (g color) (b color)).

(** One turn of the loop over [annotation.points] (lines 338-357), on the
    pair of [lastPoint] and the page. *)
Definition drawPoint (width : float) (color : Rgb) (point : Point)
    (st : option Point * PDFPage) : result (option Point * PDFPage) :=
  let '(lastPoint, pg) := st in
  let transformedPoint :=
    transformCoordinates point overlayWidth overlayHeight pdfWidth pdfHeight (Some scale) in
  match lastPoint with
  | Some lastPoint =>
      and_then
        (page_draw env
           (drawLine lastPoint transformedPoint
              ((width * pdfWidth) / overlayWidth)
              (rgb (r color) (g color) (b color)))
           pg)
        (fun pg' => Ok (Some transformedPoint, pg'))
  | None => Ok (Some transformedPoint, pg)
  end.

(** The body of the [switch] on [annotation.type] (lines 280-360). *)
Definition drawAnnotation (annotation : Annotation) (pg : PDFPage) : result PDFPage :=
  match annotation with
  | Highlight _ start end_ color =>
      page_draw env (highlightRectangle start end_ color) pg
  | Text _ position text color =>
      page_draw env (textCall position text color) pg
  | Draw _ points color width =>
      let color := hexToRgb color in
      and_then (forEach (drawPoint width color) points (None, pg))
        (fun st => Ok (snd st))
  end.

End ExportEngine.

(** Lines 265-361: the document after every annotation has been drawn on
    its first page. [getPages()[0]] is [undefined] for a document without
    pages, and reading its size throws. *)
Definition annotatedDocument (env : Env) (overlayWidth overlayHeight : float)
    (annotations : list Annotation) : result PDFDocument :=
  and_then (fetch_arrayBuffer env) (fun existingPdfBytes =>
  and_then (PDFDocument_load env existingPdfBytes) (fun pdfDoc =>
  match getPages pdfDoc with
  | [] => Throw TypeError
  | pg :: others =>
      let pdfWidth := page_width pg in
      let pdfHeight := page_height pg in
      let scale := JS.Math_min (overlayWidth / pdfWidth) (overlayHeight / pdfHeight) in
      and_then
        (forEach (drawAnnotation env overlayWidth overlayHeight pdfWidth pdfHeight scale)
           annotations pg)
        (fun pg' => Ok {| getPages := pg' :: others |})
  end)).

(** [downloadAnnotatedPDF] (lines 256-377), called with the annotation
    sequence of the current render. *)
Definition downloadAnnotatedPDF (env : Env) (annotations : list Annotation) : M unit :=
  try_catch
    (match overlayRef env with
     | None => ret tt
     | Some (overlayWidth, overlayHeight) =>
         (pdfDoc <- lift (annotatedDocument env overlayWidth overlayHeight annotations) ;;
          pdfBytes <- lift (PDFDocument_save env pdfDoc) ;;
          save_as "annotated-document.pdf" pdfBytes)%M
     end)
    (fun error => console_error error).

(** ** The application: the component and the world around it *)

Record App : Type := mkApp { component : State; world : World }.

Inductive Action : Type :=
| UI (ev : Event)
| onDownloadClick (env : Env).

(** One user action, handled on a rendered state and rendered before the
    next one (see [dispatch]). The download button (line 545) runs the
    export on the annotations of the current render; the promise it returns
    is dropped. *)
Definition perform (app : App) (act : Action) : App :=
  match act with
  | UI ev => {| component := dispatch (component app) ev; world := world app |}
  | onDownloadClick env =>
      {| component := component app;
         world := snd (downloadAnnotatedPDF env (annotations (component app)) (world app)) |}
  end.

Definition initialApp : App :=
  {| component := initialState; world := {| console := []; downloads := [] |} |}.

(** The application after a sequence of actions, from the first render. *)
Definition run (acts : list Action) : App := fold_left perform acts initialApp.

(** The completion of a call of [transformCoordinates]: its body holds no
    [throw] and arithmetic on numbers never throws, so the call always
    completes with the object it builds. *)
Definition transformCoordinates_call (point : Point)
    (overlayWidth overlayHeight pdfWidth pdfHeight : float)
    (scale : option float) : result Point :=
  Ok (transformCoordinates point overlayWidth overlayHeight pdfWidth pdfHeight scale).

(** ** Notions the properties below are stated with *)

(** A number between 0 and 1, bounds included. *)
Definition unit_interval (c : float) : bool := (0 <=? c)%float && (c <=? 1)%float.

(** The byte written by the two digits at positions [i] and [i + 1]. *)
Definition byte_at (i : nat) (hex : string) : Z :=
  match String.get i hex, String.get (S i) hex with
  | Some c1, Some c2 => byte_value c1 c2
  | _, _ => 0
  end.

(** The annotation a gesture in progress has captured so far: the path of a
    drawing, the two corners of a highlight. *)
Definition pendingAnnotation (s : State) : option Annotation :=
  match currentTool s with
  | tool_draw =>
      if isDrawing s then Some (Draw 1 (currentPath s) (annotationColor s) 2) else None
  | tool_highlight =>
      match highlightInfo s with
      | Some (start, current) => Some (Highlight 1 start current (annotationColor s))
      | None => None
      end
  | _ => None
  end.

(** The pairs of neighbours of a sequence, in order. *)
Definition consecutive {A : Type} (l : list A) : list (A * A) := combine l (tl l).

(** The [drawLine] call that joins two projected points. *)
Definition pathSegment (overlayWidth pdfWidth width : float) (c : Rgb)
    (ab : Point * Point) : DrawOp :=
  drawLine (fst ab) (snd ab) ((width * pdfWidth) / overlayWidth) (rgb (r c) (g c) (b c)).

(** The line segments that join the projections of consecutive points of a
    path. *)
Definition pathSegments (overlayWidth overlayHeight pdfWidth pdfHeight scale : float)
    (points : list Point) (color : string) (width : float) : list DrawOp :=
  map (pathSegment overlayWidth pdfWidth width (hexToRgb color))
      (consecutive
         (map (fun q => transformCoordinates q overlayWidth overlayHeight pdfWidth pdfHeight (Some scale))
              points)).

(** The drawing calls of a list, made in order until one is rejected. *)
Definition draw_all (env : Env) (ops : list DrawOp) (pg : PDFPage) : result PDFPage :=
  forEach (page_draw env) ops pg.

(** A step of the export fails: the fetch, the parse, the drawing of the
    annotations on the first page (or reading that page), or the
    serialization of the annotated document. *)
Inductive ExportFails (env : Env) (annotations : list Annotation) : Prop :=
| fetch_fails (e : Error) :
    fetch_arrayBuffer env = Throw e -> ExportFails env annotations
| parse_fails (bytes : list Byte.byte) (e : Error) :
    fetch_arrayBuffer env = Ok bytes ->
    PDFDocument_load env bytes = Throw e -> ExportFails env annotations
| drawing_fails (overlayWidth overlayHeight : float) (e : Error) :
    overlayRef env = Some (overlayWidth, overlayHeight) ->
    annotatedDocument env overlayWidth overlayHeight annotations = Throw e ->
    ExportFails env annotations
| serialize_fails (overlayWidth overlayHeight : float) (pdfDoc : PDFDocument) (e : Error) :
    overlayRef env = Some (overlayWidth, overlayHeight) ->
    annotatedDocument env overlayWidth overlayHeight annotations = Ok pdfDoc ->
    PDFDocument_save env pdfDoc = Throw e -> ExportFails env annotations.

(** Every committed annotation is on page 1. *)
Definition on_first_page (l : list Annotation) : Prop :=
  Forall (fun a => page a = 1%float) l.

(** ** Sample collaborators *)

(** An environment in which every call succeeds, on a one-page document. *)
Definition friendlyEnv : Env :=
  {| overlayRef := Some (200, 100)%float;
     fetch_arrayBuffer := Ok [];
     PDFDocument_load := fun _ => Ok {| getPages := [mkPDFPage 100 100 []] |};
     draw_rejected := fun _ _ => None;
     PDFDocument_save := fun _ => Ok [] |}.

(** An export whose fetch fails. *)
Definition offlineEnv : Env :=
  {| overlayRef := Some (200, 100)%float;
     fetch_arrayBuffer := Throw FetchFailure;
     PDFDocument_load := fun _ => Throw ParseFailure;
     draw_rejected := fun _ _ => None;
     PDFDocument_save := fun _ => Throw SerializeFailure |}.

(** ** Exhaustive checks over the code units *)

(** The 256 code units a [string] can hold. *)
Definition all_ascii : list ascii := map ascii_of_nat (seq 0 256).

(** What [hexToRgb] does for one channel written with the digits [c1] and
    [c2]: it parses the byte and divides it by 255, landing in [0, 1]. *)
Definition channel_ok (c1 c2 : ascii) : bool :=
  implb (is_hex_digit c1 && is_hex_digit c2)
    (PrimFloat.Leibniz.eqb
       (JSString.parseInt16 (String c1 (String c2 EmptyString)))
       (JS.of_Z (byte_value c1 c2))
     && (0 <=? byte_value c1 c2)%Z && (byte_value c1 c2 <=? 255)%Z
     && unit_interval (JS.of_Z (byte_value c1 c2) / 255)).

(** ** Notions for the further properties *)


(** The point of the overlay under the pointer (lines 110-112 and
    138-140). *)
Definition pointOf (rm : DOMRect * MouseEvent) : Point :=
  {| x := clientX (snd rm) - rect_left (fst rm);
     y := clientY (snd rm) - rect_top (fst rm) |}.

(** Pointer moves over a mounted overlay, each with the rectangle the
    overlay has at that time. *)
Definition moves (es : list (DOMRect * MouseEvent)) : list Event :=
  map (fun rm => onMouseMove (Some (fst rm)) (snd rm)) es.

(** What the data model expects of a committed annotation: a path has at
    least one point and stroke width 2, a note has a text. *)
Definition wellFormed (a : Annotation) : Prop :=
  match a with
  | Highlight _ _ _ _ => True
  | Draw _ points _ width => points <> [] /\ width = 2
  | Text _ _ text _ => text <> ""
  end.

(** The invariant behind the well-formedness of commits: the committed
    annotations are well formed and a drawing in progress has a point. *)
Definition captureInvariant (s : State) : Prop :=
  Forall wellFormed (annotations s)
  /\ (isDrawing s = true -> currentPath s <> []).

(** While the dialog is open a position is recorded. *)
Definition dialogInvariant (s : State) : Prop :=
  isModalOpen s = true -> modalPosition s <> None.

(** The drawing calls one annotation asks for (lines 280-360). *)
Definition annotationOps (overlayWidth overlayHeight pdfWidth pdfHeight scale : float)
    (annotation : Annotation) : list DrawOp :=
  match annotation with
  | Highlight _ start end_ color =>
      [highlightRectangle overlayWidth overlayHeight pdfWidth pdfHeight scale start end_ color]
  | Text _ position text color =>
      [textCall overlayWidth overlayHeight pdfWidth pdfHeight scale position text color]
  | Draw _ points color width =>
      pathSegments overlayWidth overlayHeight pdfWidth pdfHeight scale points color width
  end.

(** The string holds the code unit [c]. *)
Fixpoint contains (c : ascii) (s : string) : bool :=
  match s with
  | EmptyString => false
  | String d s' => Ascii.eqb d c || contains c s'
  end.

(** Upper-casing of the letters [a] to [z], other code units unchanged. *)
Definition upper (c : ascii) : ascii :=
  let n := nat_of_ascii c in
  if ((97 <=? n) && (n <=? 122))%nat then ascii_of_nat (n - 32) else c.

Fixpoint toUpperCase (s : string) : string :=
  match s with
  | EmptyString => EmptyString
  | String c s' => String (upper c) (toUpperCase s')
  end.

(** The digits [parseInt] reads once the sign is gone: the [0x] prefix is
    skipped. *)
Definition unprefixed (s : string) : string :=
  match s with
  | String "0" (String "x" s') => s'
  | String "0" (String "X" s') => s'
  | _ => s
  end.

(** The inline style of the box drawn over the page for a committed
    highlight (lines 430-442). *)
Module BoxStyle.

Record t : Type := mk {
  left : float;
  top : float;
  width : float;
  height : float;
  backgroundColor : string;
  opacity : float;
  pointerEvents : string
}.

End BoxStyle.

Definition highlightStyle (start end_ : Point) (color : string) : BoxStyle.t :=
  {| BoxStyle.left := JS.Math_min (x start) (x end_);
     BoxStyle.top := JS.Math_min (y start) (y end_);
     BoxStyle.width := JS.Math_abs (x end_ - x start);
     BoxStyle.height := JS.Math_abs (y end_ - y start);
     BoxStyle.backgroundColor := color;
     BoxStyle.opacity := 0.3;
     BoxStyle.pointerEvents := "none" |}.

(** Batches of pointer moves, each batch followed by a render. *)
Definition rendering (batches : list (list (DOMRect * MouseEvent))) : list Step :=
  flat_map (fun es => map fire (moves es) ++ [render]) batches.

(** A gesture over the mounted overlay: a pointer-down, rendered as every
    discrete event is; batches of moves, each rendered; moves not rendered
    yet; and the pointer-up, rendered. *)
Definition gesture (down : DOMRect * MouseEvent)
    (batches : list (list (DOMRect * MouseEvent)))
    (unrendered : list (DOMRect * MouseEvent)) : list Step :=
  fire (onMouseDown (Some (fst down)) (snd down)) :: render
  :: rendering batches ++ map fire (moves unrendered) ++ [fire onMouseUp; render].

(** The updates not rendered yet are pointer moves only: the tool and the
    gesture flags are those of the last render. *)
Definition onlyMovesPending (c : Component) : Prop :=
  currentTool (pending c) = currentTool (rendered c)
  /\ isDrawing (pending c) = isDrawing (rendered c)
  /\ (highlightInfo (pending c) = None <-> highlightInfo (rendered c) = None).

(** A committed annotation as the data model wants it: on page 1 and well
    formed. *)
Definition sound (a : Annotation) : Prop := page a = 1%float /\ wellFormed a.

(** What holds of a component between renders: the sequences of the last
    render and of the pending state are sound, and in both a drawing in
    progress has a point. *)
Definition renderInvariant (c : Component) : Prop :=
  Forall sound (annotations (rendered c))
  /\ Forall sound (annotations (pending c))
  /\ (isDrawing (rendered c) = true -> currentPath (rendered c) <> [])
  /\ (isDrawing (pending c) = true -> currentPath (pending c) <> []).

(** ** Sample inputs *)

Definition sampleRect : DOMRect := mkDOMRect 200 100 0 0.

Definition sampleDown : DOMRect * MouseEvent := (sampleRect, mkMouseEvent 50 0).

Definition sampleMoves : list (DOMRect * MouseEvent) :=
  [(sampleRect, mkMouseEvent 100 50); (sampleRect, mkMouseEvent 150 100)].

(** A click in text mode followed by typing. *)
Definition sampleDialogActs : list Action :=
  [UI (onToolClick tool_text);
   UI (onMouseDown (Some sampleRect) (mkMouseEvent 50 0));
   UI (onModalTextChange "note")].


(** A drawing whose pointer-down has been rendered and whose first move
    has not. *)
Definition unrenderedMove : Component :=
  fold_left react
    [fire (onToolClick tool_draw); render;
     fire (onMouseDown (Some sampleRect) (mkMouseEvent 50 0)); render;
     fire (onMouseMove (Some sampleRect) (mkMouseEvent 100 50))]
    (mounted initialState).

Definition sampleAnnotations : list Annotation :=
  [Highlight 1 (mkPoint 50 0) (mkPoint 150 100) "#FF0000";
   Text 1 (mkPoint 100 50) "note" "#000000"].

(** * Properties *)

(** ** Facts about binary64 arithmetic

    They are derived from the specification of the primitive operations
    ([FloatAxioms]) over [spec_float]. *)

Local Open Scope float_scope.

Lemma SFcompare_refl (v : spec_float) :
  SFcompare v v = match v with S754_nan => None | _ => Some Eq end.
Proof.
  destruct v as [s|s| |s m e]; cbn; try reflexivity.
  - destruct s; reflexivity.
  - rewrite Z.compare_refl. fold (Pos.compare m m). rewrite Pos.compare_refl.
    destruct s; reflexivity.
Qed.

Lemma SFcompare_antisym (v w : spec_float) :
  SFcompare w v = option_map CompOpp (SFcompare v w).
Proof.
  destruct v as [s|s| |s m e], w as [t|t| |t n f]; cbn;
    try (destruct s; reflexivity); try (destruct t; reflexivity);
    try (destruct s, t; reflexivity); try reflexivity.
  rewrite (Z.compare_antisym e f).
  destruct s, t; cbn; try reflexivity;
    destruct (e ?= f)%Z; cbn; try reflexivity;
    fold (Pos.compare m n); fold (Pos.compare n m);
    rewrite (Pos.compare_antisym m n);
    try rewrite CompOpp_involutive; reflexivity.
Qed.

Lemma SFcompare_Eq (v w : spec_float) :
  SFcompare v w = Some Eq -> v = w \/ (SFzero v = true /\ SFzero w = true).
Proof.
  destruct v as [s|s| |s m e], w as [t|t| |t n f]; cbn; intro H;
    try discriminate H; try (right; split; reflexivity);
    try (destruct s; discriminate H); try (destruct t; discriminate H).
  - left. destruct s, t; try discriminate H; reflexivity.
  - left.
    assert (Hs : s = t) by (destruct s, t; try discriminate H; reflexivity).
    subst t.
    assert (He : (e ?= f)%Z = Eq).
    { destruct s; destruct (e ?= f)%Z; try discriminate H; reflexivity. }
    apply Z.compare_eq in He. subst f.
    rewrite Z.compare_refl in H.
    assert (Hm : (m ?= n)%positive = Eq).
    { unfold Pos.compare. destruct s; destruct (Pos.compare_cont Eq m n);
        try discriminate H; reflexivity. }
    apply Pos.compare_eq in Hm. subst n. reflexivity.
Qed.

Lemma is_nan_spec (a : float) :
  is_nan a = match Prim2SF a with S754_nan => true | _ => false end.
Proof.
  unfold is_nan. rewrite eqb_spec. unfold SFeqb. rewrite SFcompare_refl.
  destruct (Prim2SF a); reflexivity.
Qed.

Lemma is_zero_spec (a : float) : is_zero a = SFzero (Prim2SF a).
Proof.
  unfold is_zero. rewrite eqb_spec.
  change (Prim2SF zero) with (S754_zero false).
  destruct (Prim2SF a) as [s|s| |s m e]; cbn; try reflexivity; destruct s; reflexivity.
Qed.

Lemma is_finite_spec (a : float) : is_finite a = SFfinite (Prim2SF a).
Proof.
  unfold is_finite, is_infinity. rewrite is_nan_spec, eqb_spec, abs_spec.
  change (Prim2SF infinity) with (S754_infinity false).
  destruct (Prim2SF a) as [s|s| |s m e]; cbn; try reflexivity.
Qed.


Lemma ltb_antisym (a c : float) : (a <? c) = true -> (c <? a) = false.
Proof.
  rewrite !ltb_spec. unfold SFltb. rewrite (SFcompare_antisym (Prim2SF a) (Prim2SF c)).
  destruct (SFcompare (Prim2SF a) (Prim2SF c)) as [[]|]; cbn; intro H;
    try discriminate H; reflexivity.
Qed.

Lemma ltb_irrefl (a : float) : (a <? a) = false.
Proof.
  rewrite ltb_spec. unfold SFltb. rewrite SFcompare_refl.
  destruct (Prim2SF a); reflexivity.
Qed.

Lemma is_neg_zero_spec (a : float) :
  JS.is_neg_zero a = match Prim2SF a with S754_zero s => s | _ => false end.
Proof.
  unfold JS.is_neg_zero. rewrite is_zero_spec, ltb_spec, div_spec.
  change (Prim2SF 1) with (S754_finite false 4503599627370496 (-52)).
  change (Prim2SF 0) with (S754_zero false).
  destruct (Prim2SF a) as [s|s| |s m e]; cbn; try reflexivity.
  destruct s; reflexivity.
Qed.

(** [Math.min] does not depend on the order of its arguments. *)
Lemma Math_min_comm (a c : float) : JS.Math_min a c = JS.Math_min c a.
Proof.
  unfold JS.Math_min. rewrite (orb_comm (is_nan c)).
  destruct (is_nan a || is_nan c) eqn:Hnan; [reflexivity|].
  apply orb_false_elim in Hnan. destruct Hnan as [Ha Hc].
  destruct (a <? c) eqn:Hac.
  - rewrite (ltb_antisym a c Hac). reflexivity.
  - destruct (c <? a) eqn:Hca; [reflexivity|].
    rewrite is_nan_spec in Ha, Hc.
    rewrite ltb_spec in Hac, Hca. unfold SFltb in Hac, Hca.
    rewrite (SFcompare_antisym (Prim2SF a) (Prim2SF c)) in Hca.
    rewrite !is_neg_zero_spec.
    destruct (SFcompare (Prim2SF a) (Prim2SF c)) as [[]|] eqn:Hcmp;
      try discriminate Hac; try discriminate Hca.
    + apply SFcompare_Eq in Hcmp. destruct Hcmp as [Heq|[Hza Hzc]].
      * apply Prim2SF_inj in Heq. subst c. destruct (Prim2SF a) as [[]| | |]; reflexivity.
      * destruct (Prim2SF a) as [s| | |] eqn:Ea; try discriminate Hza.
        destruct (Prim2SF c) as [t| | |] eqn:Ec; try discriminate Hzc.
        destruct s, t; try reflexivity;
          apply Prim2SF_inj; rewrite Ea, Ec; reflexivity.
    + destruct (Prim2SF a) as [| | |], (Prim2SF c) as [| | |];
        try discriminate Ha; try discriminate Hc; discriminate Hcmp.
Qed.

Lemma SFabs_binary_round_aux (s t : bool) (m e : Z) (l : location) :
  SFabs (binary_round_aux prec emax s m e l) = SFabs (binary_round_aux prec emax t m e l).
Proof.
  unfold binary_round_aux.
  destruct (shr_fexp prec emax m e l) as [mrs' e'].
  destruct (shr_fexp prec emax _ e' loc_Exact) as [mrs'' e''].
  destruct (shr_m mrs''); try reflexivity.
  destruct (e'' <=? emax - prec)%Z; reflexivity.
Qed.

Lemma SFabs_binary_normalize_opp (m e : Z) :
  SFabs (binary_normalize prec emax (- m) e false)
  = SFabs (binary_normalize prec emax m e false).
Proof.
  destruct m as [|p|p]; cbn [Z.opp binary_normalize]; try reflexivity;
    unfold binary_round;
    destruct (shl_align p e _) as [mz ez]; apply SFabs_binary_round_aux.
Qed.

Lemma SFabs_SFsub_swap (v w : spec_float) :
  SFabs (SFsub prec emax v w) = SFabs (SFsub prec emax w v).
Proof.
  destruct v as [s|s| |s m e], w as [t|t| |t n f]; cbn [SFsub SFabs];
    try reflexivity; try (destruct s, t; reflexivity).
  rewrite (Z.min_comm f e).
  rewrite <- SFabs_binary_normalize_opp. f_equal. f_equal. lia.
Qed.

(** The distance between two numbers does not depend on their order. *)
Lemma Math_abs_sub_swap (a c : float) : JS.Math_abs (a - c) = JS.Math_abs (c - a).
Proof.
  unfold JS.Math_abs. apply Prim2SF_inj.
  rewrite !abs_spec, !sub_spec. apply SFabs_SFsub_swap.
Qed.

Lemma SFdiv_zero_not_finite (v : spec_float) (s : bool) :
  SFfinite (SFdiv prec emax v (S754_zero s)) = false.
Proof. destruct v; reflexivity. Qed.

Lemma SFmul_not_finite (v w : spec_float) :
  SFfinite v = false -> SFfinite (SFmul prec emax v w) = false.
Proof. destruct v, w; cbn; intro H; try discriminate H; reflexivity. Qed.

Lemma SFsub_not_finite (v w : spec_float) :
  SFfinite w = false -> SFfinite (SFsub prec emax v w) = false.
Proof.
  destruct v as [s|s| |s m e], w as [t|t| |t n f]; cbn; intro H;
    try discriminate H; try reflexivity; destruct s, t; reflexivity.
Qed.

(** A quotient by a zero, scaled twice, is [NaN] or an infinity. *)
Lemma scaled_quotient_not_finite (a d k1 k2 : float) :
  is_zero d = true -> is_finite (a / d * k1 * k2) = false.
Proof.
  rewrite is_zero_spec, is_finite_spec, !mul_spec, div_spec. intro Hd.
  destruct (Prim2SF d) as [s| | |]; try discriminate Hd.
  apply SFmul_not_finite, SFmul_not_finite, SFdiv_zero_not_finite.
Qed.

Lemma flipped_quotient_not_finite (h a d k1 k2 : float) :
  is_zero d = true -> is_finite (h - a / d * k1 * k2) = false.
Proof.
  intro Hd. rewrite is_finite_spec, sub_spec. apply SFsub_not_finite.
  rewrite <- is_finite_spec. apply scaled_quotient_not_finite, Hd.
Qed.


Lemma positive_finite_spec (v : float) :
  positive_finite v = true ->
  exists m e, Prim2SF v = S754_finite false m e /\ bounded prec emax m e = true.
Proof.
  unfold positive_finite. rewrite !ltb_spec.
  change (Prim2SF 0) with (S754_zero false).
  change (Prim2SF infinity) with (S754_infinity false).
  pose proof (Prim2SF_valid v) as Hv.
  destruct (Prim2SF v) as [s|s| |s m e]; cbn; intro H;
    try discriminate H; try (destruct s; discriminate H).
  destruct s; [discriminate H|].
  exists m, e. split; [reflexivity|exact Hv].
Qed.

Lemma sub_diag (v : float) : positive_finite v = true -> v - v = 0.
Proof.
  intro H. destruct (positive_finite_spec v H) as [m [e [Hv _]]].
  apply Prim2SF_inj. rewrite sub_spec, Hv.
  change (Prim2SF 0) with (S754_zero false).
  unfold SF64sub, SFsub. rewrite Z.sub_diag. reflexivity.
Qed.

Lemma sub_zero (v : float) : positive_finite v = true -> v - 0 = v.
Proof.
  intro H. destruct (positive_finite_spec v H) as [m [e [Hv _]]].
  apply Prim2SF_inj. rewrite sub_spec, Hv.
  change (Prim2SF 0) with (S754_zero false). reflexivity.
Qed.

Lemma zero_div (v : float) : positive_finite v = true -> 0 / v = 0.
Proof.
  intro H. destruct (positive_finite_spec v H) as [m [e [Hv _]]].
  apply Prim2SF_inj. rewrite div_spec, Hv.
  change (Prim2SF 0) with (S754_zero false). reflexivity.
Qed.

Lemma zero_mul (v : float) : positive_finite v = true -> 0 * v = 0.
Proof.
  intro H. destruct (positive_finite_spec v H) as [m [e [Hv _]]].
  apply Prim2SF_inj. rewrite mul_spec, Hv.
  change (Prim2SF 0) with (S754_zero false). reflexivity.
Qed.

Lemma div_diag (v : float) : positive_finite v = true -> v / v = 1.
Proof.
  intro H. destruct (positive_finite_spec v H) as [m [e [Hv _]]].
  apply Prim2SF_inj. rewrite div_spec, Hv.
  unfold SF64div, SFdiv, SFdiv_core_binary.
  rewrite !Z.sub_diag.
  change (Z.min (fexp prec emax 0) 0) with (-53)%Z.
  change (0 - -53)%Z with 53%Z. cbv iota beta.
  rewrite Z.shiftl_mul_pow2 by discriminate.
  destruct (Z.div_eucl (Z.pos m * 2 ^ 53) (Z.pos m)) as [q rm] eqn:Hdiv.
  assert (Hq : q = (2 ^ 53)%Z).
  { change q with (fst (q, rm)). rewrite <- Hdiv. fold (Z.div (Z.pos m * 2 ^ 53) (Z.pos m)).
    rewrite Z.mul_comm. apply Z.div_mul. discriminate. }
  assert (Hr : rm = 0%Z).
  { change rm with (snd (q, rm)). rewrite <- Hdiv. fold (Z.modulo (Z.pos m * 2 ^ 53) (Z.pos m)).
    rewrite Z.mul_comm. apply Z.mod_mul. discriminate. }
  subst q rm.
  assert (Hloc : new_location (Z.pos m) 0 = loc_Exact).
  { unfold new_location, new_location_even, new_location_odd.
    destruct (Z.even (Z.pos m)); reflexivity. }
  rewrite Hloc. vm_compute. reflexivity.
Qed.


Lemma digits2_pos_shift52 (m : positive) :
  Z.pos (digits2_pos (4503599627370496 * m)) = (Z.pos (digits2_pos m) + 52)%Z.
Proof.
  cbn [Pos.mul digits2_pos]. rewrite !Pos2Z.inj_succ. lia.
Qed.

Lemma shr_52 (m : positive) :
  iter_pos shr_1 52 (shr_record_of_loc (Z.pos (4503599627370496 * m)) loc_Exact)
  = Build_shr_record (Z.pos m) false false.
Proof. reflexivity. Qed.

Lemma one_mul_SF (m : positive) (e : Z) :
  bounded prec emax m e = true ->
  binary_round_aux prec emax false (Z.pos (4503599627370496 * m)) (-52 + e) loc_Exact
  = S754_finite false m e.
Proof.
  intro Hb. unfold bounded, canonical_mantissa in Hb.
  apply andb_prop in Hb. destruct Hb as [Hcanon Hmax].
  apply Z.eqb_eq in Hcanon.
  unfold binary_round_aux, shr_fexp.
  cbn [Zdigits2]. rewrite digits2_pos_shift52.
  replace (Z.pos (digits2_pos m) + 52 + (-52 + e))%Z with (Z.pos (digits2_pos m) + e)%Z by lia.
  rewrite Hcanon.
  replace (e - (-52 + e))%Z with 52%Z by lia.
  cbn [shr]. rewrite shr_52.
  replace (-52 + e + 52)%Z with e by lia.
  cbn [shr_m loc_of_shr_record round_nearest_even Zdigits2 shr_record_of_loc].
  rewrite Hcanon, Z.sub_diag. cbn [shr shr_m]. rewrite Hmax. reflexivity.
Qed.

Lemma one_mul (v : float) : positive_finite v = true -> 1 * v = v.
Proof.
  intro H. destruct (positive_finite_spec v H) as [m [e [Hv Hb]]].
  apply Prim2SF_inj. rewrite mul_spec, Hv.
  change (Prim2SF 1) with (S754_finite false 4503599627370496 (-52)).
  unfold SF64mul, SFmul. cbn [xorb]. apply one_mul_SF, Hb.
Qed.

Lemma mul_one (v : float) : positive_finite v = true -> v * 1 = v.
Proof.
  intro H. destruct (positive_finite_spec v H) as [m [e [Hv Hb]]].
  apply Prim2SF_inj. rewrite mul_spec, Hv.
  change (Prim2SF 1) with (S754_finite false 4503599627370496 (-52)).
  unfold SF64mul, SFmul. cbn [xorb].
  rewrite Pos.mul_comm, Z.add_comm. apply one_mul_SF, Hb.
Qed.

(** ** The projector and the letterbox algorithm *)

(** C1. For every point, every viewport and document size and every scale
    (given or defaulted to 1), [transformCoordinates] computes the letterbox
    algorithm of the specification: the same rendered size, the same
    centering offsets (half the leftover on each axis) and the same output
    point [outX], [outY], the latter with the vertical flip. It holds for
    all numbers, positive or not. *)
Theorem transformCoordinates_is_letterbox :
  forall (point : Point) (viewportWidth viewportHeight documentWidth documentHeight : float)
         (scale : option float),
    scaledWidth viewportWidth viewportHeight documentWidth documentHeight
    = LetterboxSpec.renderedWidth
        (LetterboxSpec.project (x point) (y point) viewportWidth viewportHeight
           documentWidth documentHeight scale)
    /\ scaledHeight viewportWidth viewportHeight documentWidth documentHeight
       = LetterboxSpec.renderedHeight
           (LetterboxSpec.project (x point) (y point) viewportWidth viewportHeight
              documentWidth documentHeight scale)
    /\ offsetX viewportWidth viewportHeight documentWidth documentHeight
       = LetterboxSpec.centerX
           (LetterboxSpec.project (x point) (y point) viewportWidth viewportHeight
              documentWidth documentHeight scale)
    /\ offsetY viewportWidth viewportHeight documentWidth documentHeight
       = LetterboxSpec.centerY
           (LetterboxSpec.project (x point) (y point) viewportWidth viewportHeight
              documentWidth documentHeight scale)
    /\ transformCoordinates point viewportWidth viewportHeight documentWidth documentHeight scale
       = {| x := LetterboxSpec.outX
                   (LetterboxSpec.project (x point) (y point) viewportWidth viewportHeight
                      documentWidth documentHeight scale);
            y := LetterboxSpec.outY
                   (LetterboxSpec.project (x point) (y point) viewportWidth viewportHeight
                      documentWidth documentHeight scale) |}.
Proof.
  intros point vw vh dw dh scale.
  unfold transformCoordinates, offsetX, offsetY, scaledWidth, scaledHeight, scaledSize,
    LetterboxSpec.project.
  cbn [LetterboxSpec.renderedWidth LetterboxSpec.renderedHeight LetterboxSpec.centerX
       LetterboxSpec.centerY LetterboxSpec.outX LetterboxSpec.outY].
  destruct (JS.gt (vw / vh) (dw / dh)); cbn [fst snd]; repeat split; reflexivity.
Qed.

(** C6. With a 200 by 100 viewport and a 100 by 100 page the rendered width
    is 100, the horizontal offset is 50, and the viewport point (50, 0) is
    projected to the document point (0, 100), with the default scale as with
    the export's own scale [min(200/100, 100/100)]. *)
Theorem letterbox_offset_200_100 :
  scaledWidth 200 100 100 100 = 100%float
  /\ offsetX 200 100 100 100 = 50%float
  /\ transformCoordinates {| x := 50; y := 0 |} 200 100 100 100 None
     = {| x := 0; y := 100 |}
  /\ transformCoordinates {| x := 50; y := 0 |} 200 100 100 100
       (Some (JS.Math_min (200 / 100) (100 / 100)))
     = {| x := 0; y := 100 |}.
Proof.
  repeat split; vm_compute; reflexivity.
Qed.

(** ** Equal aspect ratios *)

(** C5, as stated, fails: a 100 by 166 viewport over a 100 by 166 page has
    equal aspect ratios, but [100 / (100 / 166)] rounds to
    165.99999999999997, the vertical offset is not zero, and neither corner
    is mapped exactly: (0, 0) goes to y = 166.00000000000003 and (100, 166)
    to y = -2.8421709430404007e-14. *)
Lemma equal_aspect_corners_not_exact :
  positive_finite 100 = true /\ positive_finite 166 = true
  /\ 100 / 166 = 100 / 166
  /\ transformCoordinates (mkPoint 0 0) 100 166 100 166 None
     = {| x := 0; y := 166.00000000000003 |}
  /\ transformCoordinates (mkPoint 0 0) 100 166 100 166 None <> {| x := 0; y := 166 |}
  /\ transformCoordinates (mkPoint 100 166) 100 166 100 166 None
     = {| x := 100; y := -2.8421709430404007e-14 |}
  /\ transformCoordinates (mkPoint 100 166) 100 166 100 166 None <> {| x := 100; y := 0 |}.
Proof.
  repeat split; try (vm_compute; reflexivity).
  - intro H. apply (f_equal (fun pt => PrimFloat.eqb (y pt) 166)) in H.
    vm_compute in H. discriminate H.
  - intro H. apply (f_equal (fun pt => PrimFloat.eqb (y pt) 0)) in H.
    vm_compute in H. discriminate H.
Qed.

(** C5, amended. For a viewport and a page of positive finite sizes whose
    aspect ratios are equal, the projector (default scale) has no
    horizontal offset and maps the x coordinate of (0, 0) to 0 and that of
    (viewportWidth, viewportHeight) to documentWidth, exactly. When
    moreover the rendered height
    [viewportWidth / (documentWidth / documentHeight)] is computed as
    [viewportHeight] itself, there is no vertical offset either and the two
    corners are mapped exactly, to (0, documentHeight) and to
    (documentWidth, 0). *)
Theorem equal_aspect_corners :
  forall viewportWidth viewportHeight documentWidth documentHeight : float,
    positive_finite viewportWidth = true ->
    positive_finite viewportHeight = true ->
    positive_finite documentWidth = true ->
    positive_finite documentHeight = true ->
    viewportWidth / viewportHeight = documentWidth / documentHeight ->
    offsetX viewportWidth viewportHeight documentWidth documentHeight = 0
    /\ x (transformCoordinates (mkPoint 0 0)
            viewportWidth viewportHeight documentWidth documentHeight None) = 0
    /\ x (transformCoordinates (mkPoint viewportWidth viewportHeight)
            viewportWidth viewportHeight documentWidth documentHeight None) = documentWidth
    /\ (viewportWidth / (documentWidth / documentHeight) = viewportHeight ->
        offsetY viewportWidth viewportHeight documentWidth documentHeight = 0
        /\ transformCoordinates (mkPoint 0 0)
             viewportWidth viewportHeight documentWidth documentHeight None
           = {| x := 0; y := documentHeight |}
        /\ transformCoordinates (mkPoint viewportWidth viewportHeight)
             viewportWidth viewportHeight documentWidth documentHeight None
           = {| x := documentWidth; y := 0 |}).
Proof.
  intros vw vh dw dh Hvw Hvh Hdw Hdh Haspect.
  assert (Hsize : scaledSize vw vh dw dh = (vw, vw / (dw / dh))).
  { unfold scaledSize, JS.gt. rewrite Haspect, ltb_irrefl. reflexivity. }
  assert (Hox : (vw - vw) / 2 = 0).
  { rewrite (sub_diag vw Hvw). vm_compute. reflexivity. }
  assert (Hx0 : (0 - 0) / vw * dw * 1 = 0).
  { replace (0 - 0) with 0 by (vm_compute; reflexivity).
    rewrite (zero_div vw Hvw), (zero_mul dw Hdw). vm_compute. reflexivity. }
  assert (Hx1 : (vw - 0) / vw * dw * 1 = dw).
  { rewrite (sub_zero vw Hvw), (div_diag vw Hvw), (one_mul dw Hdw).
    apply (mul_one dw Hdw). }
  unfold offsetX, offsetY, transformCoordinates, scaledWidth, scaledHeight.
  rewrite Hsize. cbn [fst snd x y]. rewrite Hox.
  split; [reflexivity|]. split; [exact Hx0|]. split; [exact Hx1|].
  intro Hheight. rewrite Hheight.
  assert (Hoy : (vh - vh) / 2 = 0).
  { rewrite (sub_diag vh Hvh). vm_compute. reflexivity. }
  rewrite Hoy, Hx0, Hx1.
  split; [reflexivity|]. split.
  - replace (0 - 0) with 0 by (vm_compute; reflexivity).
    rewrite (zero_div vh Hvh), (zero_mul dh Hdh).
    replace (0 * 1) with 0 by (vm_compute; reflexivity).
    rewrite (sub_zero dh Hdh). reflexivity.
  - rewrite (sub_zero vh Hvh), (div_diag vh Hvh), (one_mul dh Hdh), (mul_one dh Hdh).
    rewrite (sub_diag dh Hdh). reflexivity.
Qed.

Lemma equal_aspect_corners_witness :
  transformCoordinates (mkPoint 0 0) 200 100 100 50 None = {| x := 0; y := 50 |}
  /\ transformCoordinates (mkPoint 200 100) 200 100 100 50 None = {| x := 100; y := 0 |}.
Proof.
  refine (proj2 (proj2 (proj2 (proj2
    (equal_aspect_corners 200 100 100 50 _ _ _ _ _))) _));
    vm_compute; reflexivity.
Defined.

(** ** Degenerate geometry *)

(** C3, as stated, fails: with a viewport of width 0 the rendered width is
    zero, yet the call completes normally and returns a point whose
    coordinates are [NaN] and [Infinity]; no [InvalidGeometry] is raised. *)
Lemma degenerate_geometry_is_not_rejected :
  is_zero (scaledWidth 0 100 100 100) = true
  /\ transformCoordinates_call (mkPoint 0 0) 0 100 100 100 None
     = Ok {| x := nan; y := infinity |}
  /\ transformCoordinates_call (mkPoint 0 0) 0 100 100 100 None <> Throw InvalidGeometry.
Proof.
  split; [vm_compute; reflexivity|].
  split; [vm_compute; reflexivity|].
  unfold transformCoordinates_call. discriminate.
Qed.

(** C3, amended. [transformCoordinates] has no guard: when the rendered
    width or height is zero the call still completes normally and returns a
    point that is not finite: the coordinate divided by that zero is [NaN]
    or an infinity. *)
Theorem degenerate_geometry_propagates :
  forall (point : Point) (overlayWidth overlayHeight pdfWidth pdfHeight : float)
         (scale : option float),
    is_zero (scaledWidth overlayWidth overlayHeight pdfWidth pdfHeight) = true
    \/ is_zero (scaledHeight overlayWidth overlayHeight pdfWidth pdfHeight) = true ->
    transformCoordinates_call point overlayWidth overlayHeight pdfWidth pdfHeight scale
    = Ok (transformCoordinates point overlayWidth overlayHeight pdfWidth pdfHeight scale)
    /\ is_finite
         (x (transformCoordinates point overlayWidth overlayHeight pdfWidth pdfHeight scale))
       && is_finite
            (y (transformCoordinates point overlayWidth overlayHeight pdfWidth pdfHeight scale))
       = false
    /\ (is_zero (scaledWidth overlayWidth overlayHeight pdfWidth pdfHeight) = true ->
        is_finite
          (x (transformCoordinates point overlayWidth overlayHeight pdfWidth pdfHeight scale))
        = false)
    /\ (is_zero (scaledHeight overlayWidth overlayHeight pdfWidth pdfHeight) = true ->
        is_finite
          (y (transformCoordinates point overlayWidth overlayHeight pdfWidth pdfHeight scale))
        = false).
Proof.
  intros point ow oh pw ph scale Hzero.
  assert (Hx : is_zero (scaledWidth ow oh pw ph) = true ->
               is_finite (x (transformCoordinates point ow oh pw ph scale)) = false).
  { intro Hz. unfold transformCoordinates. cbn [x].
    apply scaled_quotient_not_finite, Hz. }
  assert (Hy : is_zero (scaledHeight ow oh pw ph) = true ->
               is_finite (y (transformCoordinates point ow oh pw ph scale)) = false).
  { intro Hz. unfold transformCoordinates. cbn [y].
    apply flipped_quotient_not_finite, Hz. }
  split; [reflexivity|].
  split; [|split; assumption].
  destruct Hzero as [Hz|Hz].
  - rewrite (Hx Hz). reflexivity.
  - rewrite (Hy Hz). apply andb_false_r.
Qed.

Lemma degenerate_geometry_propagates_witness :
  is_zero (scaledWidth 0 100 100 100) = true
  /\ is_finite (x (transformCoordinates (mkPoint 0 0) 0 100 100 100 None)) = false.
Proof.
  split; [vm_compute; reflexivity|].
  refine (proj1 (proj2 (proj2
    (degenerate_geometry_propagates (mkPoint 0 0) 0 100 100 100 None _))) _).
  - left. vm_compute. reflexivity.
  - vm_compute. reflexivity.
Defined.

(** ** Colours *)

Lemma in_all_ascii (c : ascii) : In c all_ascii.
Proof.
  unfold all_ascii. rewrite <- (ascii_nat_embedding c).
  apply in_map, in_seq. split; [apply Nat.le_0_l|].
  cbn [Nat.add]. apply nat_ascii_bounded.
Qed.

Lemma channel_ok_all :
  forallb (fun c1 => forallb (channel_ok c1) all_ascii) all_ascii = true.
Proof.
  vm_compute. reflexivity.
Qed.

Lemma channel_ok_digits (c1 c2 : ascii) :
  is_hex_digit c1 = true -> is_hex_digit c2 = true ->
  JSString.parseInt16 (String c1 (String c2 EmptyString)) = JS.of_Z (byte_value c1 c2)
  /\ (0 <= byte_value c1 c2 <= 255)%Z
  /\ unit_interval (JS.of_Z (byte_value c1 c2) / 255) = true.
Proof.
  intros H1 H2.
  pose proof channel_ok_all as Hall.
  rewrite forallb_forall in Hall. specialize (Hall c1 (in_all_ascii c1)).
  rewrite forallb_forall in Hall. specialize (Hall c2 (in_all_ascii c2)).
  unfold channel_ok in Hall. rewrite H1, H2 in Hall. cbn [andb implb] in Hall.
  apply andb_prop in Hall. destruct Hall as [Hall Hunit].
  apply andb_prop in Hall. destruct Hall as [Hall Hhi].
  apply andb_prop in Hall. destruct Hall as [Heq Hlo].
  apply FloatAxioms.Leibniz.eqb_spec in Heq.
  apply Z.leb_le in Hlo. apply Z.leb_le in Hhi.
  repeat split; assumption.
Qed.

(** C8. For a canonical colour string, [#] followed by six radix-16
    digits, [hexToRgb] returns for each channel the byte its two digits
    write, divided by 255, which lies between 0 and 1. In particular
    [#FF0000] gives (1, 0, 0), [#000000] gives (0, 0, 0) and [#FFFFFF]
    gives (1, 1, 1). *)
Theorem hexToRgb_canonical :
  (forall hex : string,
     canonical_color hex = true ->
     hexToRgb hex
     = {| r := JS.of_Z (byte_at 1 hex) / 255;
          g := JS.of_Z (byte_at 3 hex) / 255;
          b := JS.of_Z (byte_at 5 hex) / 255 |}
     /\ (0 <= byte_at 1 hex <= 255)%Z
     /\ (0 <= byte_at 3 hex <= 255)%Z
     /\ (0 <= byte_at 5 hex <= 255)%Z
     /\ unit_interval (r (hexToRgb hex)) = true
     /\ unit_interval (g (hexToRgb hex)) = true
     /\ unit_interval (b (hexToRgb hex)) = true)
  /\ hexToRgb "#FF0000" = {| r := 1; g := 0; b := 0 |}
  /\ hexToRgb "#000000" = {| r := 0; g := 0; b := 0 |}
  /\ hexToRgb "#FFFFFF" = {| r := 1; g := 1; b := 1 |}.
Proof.
  split; [|repeat split; vm_compute; reflexivity].
  intros hex Hcanon.
  destruct hex as [|h hex]; [discriminate Hcanon|].
  assert (Hh : h = "#"%char).
  { destruct h as [[] [] [] [] [] [] [] []]; try discriminate Hcanon; reflexivity. }
  subst h.
  destruct hex as [|r1 [|r2 [|g1 [|g2 [|b1 [|b2 [|extra hex]]]]]]];
    try discriminate Hcanon.
  cbn [canonical_color] in Hcanon.
  repeat (apply andb_prop in Hcanon; destruct Hcanon as [Hcanon ?]).
  destruct (channel_ok_digits r1 r2) as [Hr [Hrb Hru]]; try assumption.
  destruct (channel_ok_digits g1 g2) as [Hg [Hgb Hgu]]; try assumption.
  destruct (channel_ok_digits b1 b2) as [Hb [Hbb Hbu]]; try assumption.
  assert (Heq :
    hexToRgb (String "#" (String r1 (String r2 (String g1 (String g2 (String b1 (String b2 EmptyString)))))))
    = {| r := JS.of_Z (byte_value r1 r2) / 255;
         g := JS.of_Z (byte_value g1 g2) / 255;
         b := JS.of_Z (byte_value b1 b2) / 255 |}).
  { unfold hexToRgb. cbn [JSString.remove_first Ascii.eqb Bool.eqb].
    unfold JSString.substring.
    cbn [Nat.min Nat.max Nat.sub String.substring].
    rewrite Hr, Hg, Hb. reflexivity. }
  rewrite Heq. cbn [r g b].
  unfold byte_at. cbn [String.get].
  repeat split; try assumption; try apply Hrb; try apply Hgb; try apply Hbb.
Qed.

Lemma hexToRgb_canonical_witness :
  canonical_color "#FFFF00" = true
  /\ hexToRgb "#FFFF00" = {| r := 1; g := 1; b := 0 |}.
Proof.
  split; [reflexivity|].
  refine (eq_trans (proj1 (proj1 hexToRgb_canonical "#FFFF00" _)) _).
  - reflexivity.
  - vm_compute. reflexivity.
Defined.

(** ** The capture engine *)




Lemma on_first_page_snoc (l : list Annotation) (a : Annotation) :
  on_first_page l -> page a = 1%float -> on_first_page (l ++ [a]).
Proof.
  intros Hl Ha. apply Forall_app. split; [exact Hl|]. constructor; [exact Ha|constructor].
Qed.

Lemma handleMouseUp_first_page (closure s : State) :
  on_first_page (annotations s) -> on_first_page (annotations (handleMouseUp closure s)).
Proof.
  intro H. unfold handleMouseUp.
  destruct (Tool_eqb (currentTool closure) tool_draw && isDrawing closure);
    destruct (Tool_eqb (currentTool closure) tool_highlight);
    destruct (highlightInfo closure) as [[start current]|]; cbn;
    repeat apply on_first_page_snoc; auto.
Qed.

Lemma handleModalSubmit_first_page (closure s : State) :
  on_first_page (annotations s) ->
  on_first_page (annotations (handleModalSubmit closure s)).
Proof.
  intro H. unfold handleModalSubmit.
  destruct (truthy (modalText closure)); destruct (modalPosition closure); cbn;
    repeat apply on_first_page_snoc; auto.
Qed.

Lemma handleMouseDown_annotations (overlay : option DOMRect) (e : MouseEvent)
    (closure s : State) :
  annotations (handleMouseDown overlay e closure s) = annotations s.
Proof.
  unfold handleMouseDown. destruct overlay; [|reflexivity].
  destruct (currentTool closure); reflexivity.
Qed.

Lemma handleMouseMove_annotations (overlay : option DOMRect) (e : MouseEvent)
    (closure s : State) :
  annotations (handleMouseMove overlay e closure s) = annotations s.
Proof.
  unfold handleMouseMove. destruct overlay; [|reflexivity].
  destruct (Tool_eqb (currentTool closure) tool_draw && isDrawing closure);
    destruct (Tool_eqb (currentTool closure) tool_highlight);
    destruct (highlightInfo closure); reflexivity.
Qed.

Lemma handle_first_page (closure s : State) (ev : Event) :
  on_first_page (annotations s) -> on_first_page (annotations (handle closure ev s)).
Proof.
  intro H. destruct ev; cbn [handle].
  - rewrite handleMouseDown_annotations. exact H.
  - rewrite handleMouseMove_annotations. exact H.
  - apply handleMouseUp_first_page, H.
  - apply handleMouseUp_first_page, H.
  - exact H.
  - exact H.
  - exact H.
  - constructor.
  - exact H.
  - exact H.
  - apply handleModalSubmit_first_page, H.
  - destruct iframe; exact H.
Qed.

Lemma dispatch_first_page (s : State) (ev : Event) :
  on_first_page (annotations s) -> on_first_page (annotations (dispatch s ev)).
Proof.
  apply handle_first_page.
Qed.

Lemma perform_first_page (app : App) (act : Action) :
  on_first_page (annotations (component app)) ->
  on_first_page (annotations (component (perform app act))).
Proof.
  intro H. destruct act; cbn [perform component].
  - apply dispatch_first_page, H.
  - exact H.
Qed.

Lemma fold_perform_first_page (acts : list Action) :
  forall app : App,
    on_first_page (annotations (component app)) ->
    on_first_page (annotations (component (fold_left perform acts app))).
Proof.
  induction acts as [|act acts IH]; intros app H; cbn [fold_left].
  - exact H.
  - apply IH, perform_first_page, H.
Qed.

(** C10. After any sequence of user actions from the first render, every
    annotation of the committed sequence has page index 1: the three
    commits (end of a drawing, end of a highlight, confirmation of the text
    dialog) write page 1 and nothing else adds an annotation. *)
Theorem committed_annotations_on_page_1 :
  forall (acts : list Action) (a : Annotation),
    In a (annotations (component (run acts))) -> page a = 1%float.
Proof.
  intros acts a Hin.
  assert (H : on_first_page (annotations (component (run acts)))).
  { apply fold_perform_first_page. constructor. }
  unfold on_first_page in H. rewrite Forall_forall in H. apply H, Hin.
Qed.

Lemma committed_annotations_on_page_1_witness :
  annotations
    (component
       (run [UI (onToolClick tool_text);
             UI (onMouseDown (Some (mkDOMRect 800 600 0 0)) (mkMouseEvent 10 20));
             UI (onModalTextChange "note");
             UI onModalAdd]))
  = [Text 1 (mkPoint 10 20) "note" "#FFFF00"]
  /\ page (Text 1 (mkPoint 10 20) "note" "#FFFF00") = 1%float.
Proof.
  split; [vm_compute; reflexivity|].
  apply (committed_annotations_on_page_1
           [UI (onToolClick tool_text);
            UI (onMouseDown (Some (mkDOMRect 800 600 0 0)) (mkMouseEvent 10 20));
            UI (onModalTextChange "note");
            UI onModalAdd]).
  vm_compute. left. reflexivity.
Defined.

(** ** The export engine: freehand paths and failures *)

(** Once a first point has been seen, the loop draws one segment per
    further point, from the previous projection to the current one. *)
Lemma forEach_drawPoint_from (env : Env)
    (overlayWidth overlayHeight pdfWidth pdfHeight scale width : float)
    (c : Rgb) (points : list Point) :
  forall (lastPoint : Point) (pg : PDFPage),
    and_then
      (forEach (drawPoint env overlayWidth overlayHeight pdfWidth pdfHeight scale width c)
         points (Some lastPoint, pg))
      (fun st => Ok (snd st))
    = draw_all env
        (map (pathSegment overlayWidth pdfWidth width c)
           (combine
              (lastPoint
               :: map (fun q => transformCoordinates q overlayWidth overlayHeight
                                  pdfWidth pdfHeight (Some scale)) points)
              (map (fun q => transformCoordinates q overlayWidth overlayHeight
                               pdfWidth pdfHeight (Some scale)) points)))
        pg.
Proof.
  induction points as [|q points IH]; intros lastPoint pg.
  - reflexivity.
  - cbn [forEach map combine]. unfold draw_all. cbn [forEach].
    unfold drawPoint at 1. unfold pathSegment at 1. cbn [fst snd].
    destruct (page_draw env _ pg) as [pg'|e]; cbn [and_then].
    + apply IH.
    + reflexivity.
Qed.

Lemma length_consecutive (A : Type) (l : list A) :
  List.length (consecutive l) = (List.length l - 1)%nat.
Proof.
  unfold consecutive. rewrite length_combine.
  destruct l as [|a l]; cbn [tl List.length]; lia.
Qed.

Lemma drawAnnotation_Draw (env : Env)
    (overlayWidth overlayHeight pdfWidth pdfHeight scale : float)
    (p : float) (points : list Point) (color : string) (width : float) (pg : PDFPage) :
  drawAnnotation env overlayWidth overlayHeight pdfWidth pdfHeight scale
    (Draw p points color width) pg
  = draw_all env
      (pathSegments overlayWidth overlayHeight pdfWidth pdfHeight scale points color width) pg.
Proof.
  unfold drawAnnotation, pathSegments, consecutive.
  destruct points as [|q points].
  - reflexivity.
  - cbn [forEach map tl]. unfold drawPoint at 1. cbn [and_then].
    apply forEach_drawPoint_from.
Qed.

Lemma draw_all_accepted (env : Env) (ops : list DrawOp) :
  (forall pg op, draw_rejected env pg op = None) ->
  forall pg : PDFPage,
    draw_all env ops pg
    = Ok {| page_width := page_width pg;
            page_height := page_height pg;
            content := content pg ++ ops |}.
Proof.
  intro Hacc. unfold draw_all.
  induction ops as [|op ops IH]; intro pg; cbn [forEach].
  - rewrite app_nil_r. destruct pg; reflexivity.
  - unfold page_draw at 1. rewrite Hacc. cbn [and_then].
    rewrite IH. cbn [page_width page_height content].
    rewrite <- app_assoc. reflexivity.
Qed.

(** C7. Exporting a freehand path makes exactly the [drawLine] calls that
    join the projections of consecutive points, in order; there are
    [n - 1] of them for [n] points, and when the library accepts them the
    page records exactly these. A path of one point makes no call at all
    and completes normally with the page untouched, whatever the library
    would have rejected. *)
Theorem freehand_path_segments :
  forall (env : Env) (overlayWidth overlayHeight pdfWidth pdfHeight scale : float)
         (p : float) (points : list Point) (color : string) (width : float) (pg : PDFPage),
    drawAnnotation env overlayWidth overlayHeight pdfWidth pdfHeight scale
      (Draw p points color width) pg
    = draw_all env
        (pathSegments overlayWidth overlayHeight pdfWidth pdfHeight scale points color width) pg
    /\ List.length (pathSegments overlayWidth overlayHeight pdfWidth pdfHeight scale points color width)
       = (List.length points - 1)%nat
    /\ ((forall pg' op, draw_rejected env pg' op = None) ->
        drawAnnotation env overlayWidth overlayHeight pdfWidth pdfHeight scale
          (Draw p points color width) pg
        = Ok {| page_width := page_width pg;
                page_height := page_height pg;
                content :=
                  content pg
                  ++ pathSegments overlayWidth overlayHeight pdfWidth pdfHeight scale
                       points color width |})
    /\ (forall q : Point,
          pathSegments overlayWidth overlayHeight pdfWidth pdfHeight scale [q] color width = []
          /\ drawAnnotation env overlayWidth overlayHeight pdfWidth pdfHeight scale
               (Draw p [q] color width) pg
             = Ok pg).
Proof.
  intros. split; [apply drawAnnotation_Draw|].
  split.
  { unfold pathSegments. rewrite length_map, length_consecutive, length_map. reflexivity. }
  split.
  { intro Hacc. rewrite drawAnnotation_Draw. apply draw_all_accepted, Hacc. }
  intro q. split; reflexivity.
Qed.

Lemma freehand_path_segments_witness :
  drawAnnotation friendlyEnv 200 100 100 100 1
    (Draw 1 [mkPoint 50 0; mkPoint 150 100; mkPoint 50 100] "#FF0000" 2)
    (mkPDFPage 100 100 [])
  = Ok (mkPDFPage 100 100
          [drawLine (mkPoint 0 100) (mkPoint 100 0) 1 (rgb 1 0 0);
           drawLine (mkPoint 100 0) (mkPoint 0 0) 1 (rgb 1 0 0)]).
Proof.
  refine (eq_trans
    (proj1 (proj2 (proj2 (freehand_path_segments friendlyEnv 200 100 100 100 1 1
       [mkPoint 50 0; mkPoint 150 100; mkPoint 50 100] "#FF0000" 2 (mkPDFPage 100 100 []))))
       _) _).
  - intros pg' op. reflexivity.
  - vm_compute. reflexivity.
Defined.

(** C2. If a step of the export fails (the fetch of the source bytes, the
    parse, the drawing on the first page, or the serialization), the error
    is caught inside [downloadAnnotatedPDF]: the call completes normally,
    the component state and with it the committed annotation sequence are
    unchanged, and no file is handed out for saving. With the overlay
    mounted the only trace is one line on the console. *)
Theorem export_all_or_nothing :
  forall (env : Env) (app : App),
    ExportFails env (annotations (component app)) ->
    fst (downloadAnnotatedPDF env (annotations (component app)) (world app)) = Ok tt
    /\ component (perform app (onDownloadClick env)) = component app
    /\ annotations (component (perform app (onDownloadClick env)))
       = annotations (component app)
    /\ downloads (world (perform app (onDownloadClick env))) = downloads (world app)
    /\ ((overlayRef env = None
         /\ world (perform app (onDownloadClick env)) = world app)
        \/ (exists e : Error,
              world (perform app (onDownloadClick env))
              = {| console := console (world app) ++ [e];
                   downloads := downloads (world app) |})).
Proof.
  intros env app Hfail.
  cbn [perform component world].
  unfold downloadAnnotatedPDF, try_catch, bind, lift, ret, console_error, save_as.
  destruct (overlayRef env) as [[ow oh]|] eqn:Hov.
  - assert (Hcases :
      (exists e, annotatedDocument env ow oh (annotations (component app)) = Throw e)
      \/ (exists d e, annotatedDocument env ow oh (annotations (component app)) = Ok d
                      /\ PDFDocument_save env d = Throw e)).
    { destruct Hfail as [e He|bytes e Hb He|ow' oh' e Hov' He|ow' oh' d e Hov' Hd He].
      - left. exists e. unfold annotatedDocument. rewrite He. reflexivity.
      - left. exists e. unfold annotatedDocument. rewrite Hb. cbn [and_then].
        rewrite He. reflexivity.
      - rewrite Hov in Hov'. injection Hov' as <- <-. left. exists e. exact He.
      - rewrite Hov in Hov'. injection Hov' as <- <-. right. exists d, e. split; assumption. }
    destruct Hcases as [[e He]|[d [e [Hd He]]]].
    + rewrite He. cbn. repeat split; try reflexivity. right. exists e. reflexivity.
    + rewrite Hd, He. cbn. repeat split; try reflexivity. right. exists e. reflexivity.
  - cbn. repeat split; try reflexivity. left. split; [reflexivity|].
    destruct (world app); reflexivity.
Qed.

Lemma export_all_or_nothing_witness :
  downloads
    (world
       (perform
          (run [UI (onMouseDown (Some (mkDOMRect 200 100 0 0)) (mkMouseEvent 10 10));
                UI (onMouseMove (Some (mkDOMRect 200 100 0 0)) (mkMouseEvent 50 40));
                UI onMouseUp])
          (onDownloadClick offlineEnv)))
  = [].
Proof.
  refine (proj1 (proj2 (proj2 (proj2
    (export_all_or_nothing offlineEnv
       (run [UI (onMouseDown (Some (mkDOMRect 200 100 0 0)) (mkMouseEvent 10 10));
             UI (onMouseMove (Some (mkDOMRect 200 100 0 0)) (mkMouseEvent 50 40));
             UI onMouseUp])
       _))))).
  apply (fetch_fails _ _ FetchFailure). reflexivity.
Defined.

(** ** Highlights: the order of the corners *)

(** C4. For every pair of corners, every viewport and page geometry, every
    scale and colour, a highlight exported with its corners swapped gives
    the same [drawRectangle] call (same x, y, width, height, colour and
    opacity), hence the same page and the same exported document; in
    particular for the corners (10, 10) and (50, 40). *)
Theorem highlight_corner_order :
  forall (overlayWidth overlayHeight pdfWidth pdfHeight scale : float)
         (a c : Point) (color : string),
    highlightRectangle overlayWidth overlayHeight pdfWidth pdfHeight scale a c color
    = highlightRectangle overlayWidth overlayHeight pdfWidth pdfHeight scale c a color
    /\ (forall (env : Env) (p q : float) (pg : PDFPage),
          drawAnnotation env overlayWidth overlayHeight pdfWidth pdfHeight scale
            (Highlight p a c color) pg
          = drawAnnotation env overlayWidth overlayHeight pdfWidth pdfHeight scale
              (Highlight q c a color) pg)
    /\ (forall (env : Env) (p q : float),
          annotatedDocument env overlayWidth overlayHeight [Highlight p a c color]
          = annotatedDocument env overlayWidth overlayHeight [Highlight q c a color])
    /\ highlightRectangle overlayWidth overlayHeight pdfWidth pdfHeight scale
         (mkPoint 10 10) (mkPoint 50 40) color
       = highlightRectangle overlayWidth overlayHeight pdfWidth pdfHeight scale
           (mkPoint 50 40) (mkPoint 10 10) color.
Proof.
  assert (Hrect :
    forall ow oh pw ph k (a c : Point) (color : string),
      highlightRectangle ow oh pw ph k a c color
      = highlightRectangle ow oh pw ph k c a color).
  { intros. unfold highlightRectangle.
    set (s := transformCoordinates a ow oh pw ph (Some k)).
    set (e := transformCoordinates c ow oh pw ph (Some k)).
    rewrite (Math_min_comm (x s) (x e)), (Math_min_comm (y s) (y e)).
    rewrite (Math_abs_sub_swap (x e) (x s)), (Math_abs_sub_swap (y e) (y s)).
    reflexivity. }
  intros ow oh pw ph k a c color.
  split; [apply Hrect|].
  split; [intros env p q pg; cbn [drawAnnotation]; rewrite Hrect; reflexivity|].
  split; [|apply Hrect].
  intros env p q. unfold annotatedDocument.
  destruct (fetch_arrayBuffer env) as [bytes|e]; [|reflexivity]. cbn [and_then].
  destruct (PDFDocument_load env bytes) as [pdfDoc|e]; [|reflexivity]. cbn [and_then].
  destruct (getPages pdfDoc) as [|pg others]; [reflexivity|].
  cbn [forEach drawAnnotation]. rewrite Hrect. reflexivity.
Qed.

(** * Further properties of the code *)

(** ** Gestures *)

Lemma handleMouseMove_drawing (rm : DOMRect * MouseEvent) (closure s : State) :
  currentTool closure = tool_draw -> isDrawing closure = true ->
  currentTool (handleMouseMove (Some (fst rm)) (snd rm) closure s) = currentTool s
  /\ isDrawing (handleMouseMove (Some (fst rm)) (snd rm) closure s) = isDrawing s
  /\ currentPath (handleMouseMove (Some (fst rm)) (snd rm) closure s)
     = currentPath s ++ [pointOf rm]
  /\ annotations (handleMouseMove (Some (fst rm)) (snd rm) closure s) = annotations s
  /\ annotationColor (handleMouseMove (Some (fst rm)) (snd rm) closure s)
     = annotationColor s.
Proof.
  intros Htool Hdraw. unfold handleMouseMove. rewrite Htool, Hdraw.
  cbn [Tool_eqb andb]. cbn. auto.
Qed.

(** Moves handled by the closures of one render: every point is appended to
    the pending path. *)
Lemma fire_moves_drawing (es : list (DOMRect * MouseEvent)) :
  forall c : Component,
    currentTool (rendered c) = tool_draw -> isDrawing (rendered c) = true ->
    rendered (fold_left react (map fire (moves es)) c) = rendered c
    /\ currentTool (pending (fold_left react (map fire (moves es)) c))
       = currentTool (pending c)
    /\ isDrawing (pending (fold_left react (map fire (moves es)) c))
       = isDrawing (pending c)
    /\ currentPath (pending (fold_left react (map fire (moves es)) c))
       = currentPath (pending c) ++ map pointOf es
    /\ annotations (pending (fold_left react (map fire (moves es)) c))
       = annotations (pending c)
    /\ annotationColor (pending (fold_left react (map fire (moves es)) c))
       = annotationColor (pending c).
Proof.
  induction es as [|rm es IH]; intros c Htool Hdraw; cbn [moves map fold_left].
  - rewrite app_nil_r. auto 10.
  - fold (moves es).
    destruct (handleMouseMove_drawing rm (rendered c) (pending c) Htool Hdraw)
      as [H1 [H2 [H3 [H4 H5]]]].
    destruct (IH (react c (fire (onMouseMove (Some (fst rm)) (snd rm)))) Htool Hdraw)
      as [I0 [I1 [I2 [I3 [I4 I5]]]]].
    rewrite I0, I1, I2, I3, I4, I5. cbn [react rendered pending handle].
    rewrite H1, H2, H3, H4, H5, <- app_assoc. auto 10.
Qed.

(** Batches of moves, each rendered: the rendered path holds every point. *)
Lemma rendering_drawing (batches : list (list (DOMRect * MouseEvent))) :
  forall c : Component,
    rendered c = pending c ->
    currentTool (rendered c) = tool_draw -> isDrawing (rendered c) = true ->
    rendered (fold_left react (rendering batches) c)
    = pending (fold_left react (rendering batches) c)
    /\ currentTool (rendered (fold_left react (rendering batches) c)) = tool_draw
    /\ isDrawing (rendered (fold_left react (rendering batches) c)) = true
    /\ currentPath (rendered (fold_left react (rendering batches) c))
       = currentPath (rendered c) ++ map pointOf (List.concat batches)
    /\ annotations (rendered (fold_left react (rendering batches) c))
       = annotations (rendered c)
    /\ annotationColor (rendered (fold_left react (rendering batches) c))
       = annotationColor (rendered c).
Proof.
  induction batches as [|es batches IH]; intros c Hsync Htool Hdraw;
    cbn [rendering flat_map List.concat].
  - cbn [fold_left]. rewrite app_nil_r. auto 10.
  - fold (rendering batches). rewrite !fold_left_app. cbn [fold_left].
    destruct (fire_moves_drawing es c Htool Hdraw) as [F0 [F1 [F2 [F3 [F4 F5]]]]].
    set (c1 := react (fold_left react (map fire (moves es)) c) render).
    assert (H1 : rendered c1 = pending c1) by reflexivity.
    assert (H2 : currentTool (rendered c1) = tool_draw).
    { unfold c1. cbn [react rendered]. rewrite F1, <- Hsync. exact Htool. }
    assert (H3 : isDrawing (rendered c1) = true).
    { unfold c1. cbn [react rendered]. rewrite F2, <- Hsync. exact Hdraw. }
    assert (H4 : currentPath (rendered c1) = currentPath (rendered c) ++ map pointOf es).
    { unfold c1. cbn [react rendered]. rewrite F3, <- Hsync. reflexivity. }
    assert (H5 : annotations (rendered c1) = annotations (rendered c)).
    { unfold c1. cbn [react rendered]. rewrite F4, <- Hsync. reflexivity. }
    assert (H6 : annotationColor (rendered c1) = annotationColor (rendered c)).
    { unfold c1. cbn [react rendered]. rewrite F5, <- Hsync. reflexivity. }
    destruct (IH c1 H1 H2 H3) as [I0 [I1 [I2 [I3 [I4 I5]]]]].
    rewrite I3, I4, I5, H4, H5, H6, map_app, app_assoc. auto 10.
Qed.

(** X1. In draw mode, a gesture whose pointer-down is rendered, followed
    by batches of moves each rendered, by moves not rendered yet and by the
    pointer-up, commits one path with the current colour and stroke width
    2: it holds the point of the pointer-down and the points of the
    rendered moves, in order and without resampling; the points of the
    moves not yet rendered are not in it. The drawing state is reset. *)
Theorem draw_gesture_commits_rendered_points :
  forall (s : State) (down : DOMRect * MouseEvent)
         (batches : list (list (DOMRect * MouseEvent)))
         (unrendered : list (DOMRect * MouseEvent)),
    currentTool s = tool_draw ->
    annotations
      (rendered (fold_left react (gesture down batches unrendered) (mounted s)))
    = annotations s
      ++ [Draw 1 (pointOf down :: map pointOf (List.concat batches)) (annotationColor s) 2]
    /\ isDrawing
         (rendered (fold_left react (gesture down batches unrendered) (mounted s)))
       = false
    /\ currentPath
         (rendered (fold_left react (gesture down batches unrendered) (mounted s)))
       = [].
Proof.
  intros s down batches unrendered Htool.
  unfold gesture. cbn [fold_left]. rewrite !fold_left_app. cbn [fold_left].
  set (c0 := react (react (mounted s) (fire (onMouseDown (Some (fst down)) (snd down))))
               render).
  assert (H0 : rendered c0 = pending c0 /\ currentTool (rendered c0) = tool_draw
               /\ isDrawing (rendered c0) = true
               /\ currentPath (rendered c0) = [pointOf down]
               /\ annotations (rendered c0) = annotations s
               /\ annotationColor (rendered c0) = annotationColor s).
  { unfold c0. cbn [react mounted rendered pending handle]. unfold handleMouseDown.
    rewrite Htool. cbn. auto 10. }
  destruct H0 as [H0 [H1 [H2 [H3 [H4 H5]]]]].
  destruct (rendering_drawing batches c0 H0 H1 H2) as [I0 [I1 [I2 [I3 [I4 I5]]]]].
  set (c1 := fold_left react (rendering batches) c0) in *.
  destruct (fire_moves_drawing unrendered c1 I1 I2) as [F0 [F1 [F2 [F3 [F4 F5]]]]].
  set (c2 := fold_left react (map fire (moves unrendered)) c1) in *.
  cbn [react rendered pending handle]. unfold handleMouseUp.
  rewrite F0, I1, I2.
  cbn [Tool_eqb andb annotations isDrawing currentPath
       setCurrentPath setIsDrawing setAnnotations].
  rewrite F4, <- I0, I3, I4, I5, H3, H4, H5. auto.
Qed.

Lemma draw_gesture_commits_rendered_points_witness :
  annotations
    (rendered
       (fold_left react
          (gesture sampleDown [[(sampleRect, mkMouseEvent 100 50)]]
             [(sampleRect, mkMouseEvent 150 100)])
          (mounted (dispatch initialState (onToolClick tool_draw)))))
  = [Draw 1 [mkPoint 50 0; mkPoint 100 50] "#FFFF00" 2].
Proof.
  refine (eq_trans
    (proj1 (draw_gesture_commits_rendered_points
              (dispatch initialState (onToolClick tool_draw)) sampleDown
              [[(sampleRect, mkMouseEvent 100 50)]]
              [(sampleRect, mkMouseEvent 150 100)] _)) _);
    vm_compute; reflexivity.
Defined.

Lemma last_cons_default (A : Type) (l : list A) :
  forall a d : A, last (a :: l) d = last l a.
Proof.
  induction l as [|c l IH]; intros a d.
  - reflexivity.
  - change (last (a :: c :: l) d) with (last (c :: l) d).
    rewrite (IH c d), (IH c a). reflexivity.
Qed.

Lemma last_app_default (A : Type) (l1 l2 : list A) (d : A) :
  last (l1 ++ l2) d = last l2 (last l1 d).
Proof.
  revert d. induction l1 as [|a l1 IH]; intro d.
  - reflexivity.
  - rewrite <- app_comm_cons, !last_cons_default. apply IH.
Qed.

Lemma handleMouseMove_highlighting (rm : DOMRect * MouseEvent) (closure s : State)
    (corners : Point * Point) (start current : Point) :
  currentTool closure = tool_highlight -> highlightInfo closure = Some corners ->
  highlightInfo s = Some (start, current) ->
  currentTool (handleMouseMove (Some (fst rm)) (snd rm) closure s) = currentTool s
  /\ highlightInfo (handleMouseMove (Some (fst rm)) (snd rm) closure s)
     = Some (start, pointOf rm)
  /\ annotations (handleMouseMove (Some (fst rm)) (snd rm) closure s) = annotations s
  /\ annotationColor (handleMouseMove (Some (fst rm)) (snd rm) closure s)
     = annotationColor s.
Proof.
  intros Htool Hinfo Hs. unfold handleMouseMove. rewrite Htool, Hinfo.
  cbn [Tool_eqb andb]. cbn. rewrite Hs. auto.
Qed.

Lemma fire_moves_highlighting (es : list (DOMRect * MouseEvent)) :
  forall (c : Component) (corners : Point * Point) (start current : Point),
    currentTool (rendered c) = tool_highlight ->
    highlightInfo (rendered c) = Some corners ->
    highlightInfo (pending c) = Some (start, current) ->
    rendered (fold_left react (map fire (moves es)) c) = rendered c
    /\ currentTool (pending (fold_left react (map fire (moves es)) c))
       = currentTool (pending c)
    /\ highlightInfo (pending (fold_left react (map fire (moves es)) c))
       = Some (start, last (map pointOf es) current)
    /\ annotations (pending (fold_left react (map fire (moves es)) c))
       = annotations (pending c)
    /\ annotationColor (pending (fold_left react (map fire (moves es)) c))
       = annotationColor (pending c).
Proof.
  induction es as [|rm es IH]; intros c corners start current Htool Hinfo Hs;
    cbn [moves map fold_left].
  - auto 10.
  - fold (moves es).
    destruct (handleMouseMove_highlighting rm (rendered c) (pending c) corners start current
                Htool Hinfo Hs) as [H1 [H2 [H3 H4]]].
    destruct (IH (react c (fire (onMouseMove (Some (fst rm)) (snd rm))))
                corners start (pointOf rm) Htool Hinfo H2) as [I0 [I1 [I2 [I3 I4]]]].
    rewrite I0, I1, I2, I3, I4. cbn [react rendered pending handle].
    rewrite H1, H3, H4, last_cons_default. auto 10.
Qed.

Lemma rendering_highlighting (batches : list (list (DOMRect * MouseEvent))) :
  forall (c : Component) (start current : Point),
    rendered c = pending c ->
    currentTool (rendered c) = tool_highlight ->
    highlightInfo (rendered c) = Some (start, current) ->
    rendered (fold_left react (rendering batches) c)
    = pending (fold_left react (rendering batches) c)
    /\ currentTool (rendered (fold_left react (rendering batches) c)) = tool_highlight
    /\ highlightInfo (rendered (fold_left react (rendering batches) c))
       = Some (start, last (map pointOf (List.concat batches)) current)
    /\ annotations (rendered (fold_left react (rendering batches) c))
       = annotations (rendered c)
    /\ annotationColor (rendered (fold_left react (rendering batches) c))
       = annotationColor (rendered c).
Proof.
  induction batches as [|es batches IH]; intros c start current Hsync Htool Hinfo;
    cbn [rendering flat_map List.concat].
  - cbn [fold_left]. auto 10.
  - fold (rendering batches). rewrite !fold_left_app. cbn [fold_left].
    assert (Hp : highlightInfo (pending c) = Some (start, current))
      by (rewrite <- Hsync; exact Hinfo).
    destruct (fire_moves_highlighting es c (start, current) start current Htool Hinfo Hp)
      as [F0 [F1 [F2 [F3 F4]]]].
    set (c1 := react (fold_left react (map fire (moves es)) c) render).
    assert (H1 : rendered c1 = pending c1) by reflexivity.
    assert (H2 : currentTool (rendered c1) = tool_highlight).
    { unfold c1. cbn [react rendered]. rewrite F1, <- Hsync. exact Htool. }
    assert (H3 : highlightInfo (rendered c1)
                 = Some (start, last (map pointOf es) current)).
    { unfold c1. cbn [react rendered]. exact F2. }
    assert (H5 : annotations (rendered c1) = annotations (rendered c)).
    { unfold c1. cbn [react rendered]. rewrite F3, <- Hsync. reflexivity. }
    assert (H6 : annotationColor (rendered c1) = annotationColor (rendered c)).
    { unfold c1. cbn [react rendered]. rewrite F4, <- Hsync. reflexivity. }
    destruct (IH c1 start _ H1 H2 H3) as [I0 [I1 [I2 [I3 I4]]]].
    rewrite I2, I3, I4, H5, H6, map_app, last_app_default. auto 10.
Qed.

(** X2. In highlight mode, a gesture whose pointer-down is rendered,
    followed by batches of moves each rendered, by moves not rendered yet
    and by the pointer-up, commits one highlight whose corners are the
    point of the pointer-down and the point of the last rendered move (the
    point of the pointer-down itself when no move was rendered: a click
    commits an empty rectangle); moves not yet rendered do not count. *)
Theorem highlight_gesture_commits_rendered_corners :
  forall (s : State) (down : DOMRect * MouseEvent)
         (batches : list (list (DOMRect * MouseEvent)))
         (unrendered : list (DOMRect * MouseEvent)),
    currentTool s = tool_highlight ->
    annotations
      (rendered (fold_left react (gesture down batches unrendered) (mounted s)))
    = annotations s
      ++ [Highlight 1 (pointOf down)
            (last (map pointOf (List.concat batches)) (pointOf down)) (annotationColor s)]
    /\ highlightInfo
         (rendered (fold_left react (gesture down batches unrendered) (mounted s)))
       = None.
Proof.
  intros s down batches unrendered Htool.
  unfold gesture. cbn [fold_left]. rewrite !fold_left_app. cbn [fold_left].
  set (c0 := react (react (mounted s) (fire (onMouseDown (Some (fst down)) (snd down))))
               render).
  assert (H0 : rendered c0 = pending c0 /\ currentTool (rendered c0) = tool_highlight
               /\ highlightInfo (rendered c0) = Some (pointOf down, pointOf down)
               /\ annotations (rendered c0) = annotations s
               /\ annotationColor (rendered c0) = annotationColor s).
  { unfold c0. cbn [react mounted rendered pending handle]. unfold handleMouseDown.
    rewrite Htool. cbn. auto 10. }
  destruct H0 as [H0 [H1 [H2 [H3 H4]]]].
  destruct (rendering_highlighting batches c0 _ _ H0 H1 H2) as [I0 [I1 [I2 [I3 I4]]]].
  set (c1 := fold_left react (rendering batches) c0) in *.
  assert (Hp : highlightInfo (pending c1)
               = Some (pointOf down, last (map pointOf (List.concat batches)) (pointOf down)))
    by (rewrite <- I0; exact I2).
  destruct (fire_moves_highlighting unrendered c1 _ _ _ I1 I2 Hp) as [F0 [F1 [F2 [F3 F4]]]].
  set (c2 := fold_left react (map fire (moves unrendered)) c1) in *.
  cbn [react rendered pending handle]. unfold handleMouseUp.
  rewrite F0, I1, I2.
  cbn [Tool_eqb andb annotations highlightInfo setHighlightInfo setAnnotations].
  rewrite F3, <- I0, I3, I4, H3, H4. auto.
Qed.

Lemma highlight_gesture_commits_rendered_corners_witness :
  annotations
    (rendered
       (fold_left react
          (gesture sampleDown [[(sampleRect, mkMouseEvent 100 50)]]
             [(sampleRect, mkMouseEvent 150 100)])
          (mounted initialState)))
  = [Highlight 1 (mkPoint 50 0) (mkPoint 100 50) "#FFFF00"].
Proof.
  refine (eq_trans
    (proj1 (highlight_gesture_commits_rendered_corners initialState sampleDown
              [[(sampleRect, mkMouseEvent 100 50)]]
              [(sampleRect, mkMouseEvent 150 100)] _)) _);
    vm_compute; reflexivity.
Defined.

Lemma idle_handleMouseUp (closure s : State) :
  pendingAnnotation closure = None -> handleMouseUp closure s = s.
Proof.
  unfold pendingAnnotation, handleMouseUp.
  destruct (currentTool closure); cbn [Tool_eqb andb].
  - reflexivity.
  - destruct (isDrawing closure); [discriminate|reflexivity].
  - destruct (highlightInfo closure) as [[start current]|]; [discriminate|reflexivity].
  - reflexivity.
Qed.

Lemma idle_handleMouseMove (overlay : option DOMRect) (e : MouseEvent) (closure s : State) :
  pendingAnnotation closure = None -> handleMouseMove overlay e closure s = s.
Proof.
  unfold pendingAnnotation, handleMouseMove.
  destruct overlay as [rect|]; [|reflexivity].
  destruct (currentTool closure); cbn [Tool_eqb andb].
  - reflexivity.
  - destruct (isDrawing closure); [discriminate|reflexivity].
  - destruct (highlightInfo closure) as [[start current]|]; [discriminate|reflexivity].
  - reflexivity.
Qed.

(** X3. When no drawing and no highlight is in progress, a pointer move, a
    pointer-up and the pointer leaving the overlay change nothing at all
    in the component state. *)
Theorem idle_pointer_events_change_nothing :
  forall (s : State) (overlay : option DOMRect) (e : MouseEvent),
    pendingAnnotation s = None ->
    dispatch s (onMouseMove overlay e) = s
    /\ dispatch s onMouseUp = s
    /\ dispatch s onMouseLeave = s.
Proof.
  intros s overlay e H. unfold dispatch. cbn [handle].
  rewrite (idle_handleMouseMove overlay e s s H), (idle_handleMouseUp s s H). auto.
Qed.

Lemma idle_pointer_events_change_nothing_witness :
  dispatch initialState (onMouseMove (Some sampleRect) (mkMouseEvent 50 0)) = initialState.
Proof.
  refine (proj1
    (idle_pointer_events_change_nothing initialState (Some sampleRect) (mkMouseEvent 50 0) _)).
  vm_compute; reflexivity.
Defined.

Lemma pendingAnnotation_after_handleMouseUp (closure s : State) :
  currentTool s = currentTool closure ->
  isDrawing s = isDrawing closure ->
  (highlightInfo s = None <-> highlightInfo closure = None) ->
  pendingAnnotation (handleMouseUp closure s) = None.
Proof.
  unfold handleMouseUp, pendingAnnotation.
  destruct closure as [cd ch dark tool anns drawing path info color open txt pos dims].
  destruct s as [cd' ch' dark' tool' anns' drawing' path' info' color' open' txt' pos' dims'].
  cbn [currentTool isDrawing highlightInfo]. intros -> -> Hinfo.
  destruct tool; cbn [Tool_eqb andb]; try reflexivity.
  - destruct drawing; reflexivity.
  - destruct info as [[start current]|]; cbn; [reflexivity|].
    destruct info' as [[start' current']|]; [|reflexivity].
    assert (H : @None (Point * Point) = None) by reflexivity.
    apply Hinfo in H. discriminate H.
Qed.

(** X4. A gesture end is committed once per render. When the updates
    still pending are pointer moves only, a pointer-up that has been
    rendered leaves nothing for the leave that follows, which changes
    nothing; but a leave and a pointer-up handled on the same render, in
    which a gesture is in progress, each append its annotation: it is
    committed twice. *)
Theorem gesture_end_commits_once_per_render :
  forall c : Component,
    (onlyMovesPending c ->
     react (fold_left react [fire onMouseUp; render] c) (fire onMouseLeave)
     = fold_left react [fire onMouseUp; render] c)
    /\ (forall a : Annotation,
          pendingAnnotation (rendered c) = Some a ->
          annotations (pending (fold_left react [fire onMouseLeave; fire onMouseUp] c))
          = annotations (pending c) ++ [a; a]).
Proof.
  intro c. split.
  - intros [Htool [Hdraw Hinfo]]. cbn [fold_left react rendered pending handle].
    rewrite (idle_handleMouseUp (handleMouseUp (rendered c) (pending c)));
      [reflexivity|].
    apply pendingAnnotation_after_handleMouseUp; assumption.
  - intros a H. cbn [fold_left react rendered pending handle].
    unfold pendingAnnotation in H. unfold handleMouseUp.
    destruct (currentTool (rendered c)); try discriminate H.
    + destruct (isDrawing (rendered c)); [|discriminate H].
      injection H as <-. cbn. rewrite <- app_assoc. reflexivity.
    + destruct (highlightInfo (rendered c)) as [[start current]|]; [|discriminate H].
      injection H as <-. cbn. rewrite <- app_assoc. reflexivity.
Qed.

Lemma gesture_end_commits_once_per_render_witness :
  react (fold_left react [fire onMouseUp; render] unrenderedMove) (fire onMouseLeave)
  = fold_left react [fire onMouseUp; render] unrenderedMove
  /\ annotations (pending (fold_left react [fire onMouseLeave; fire onMouseUp] unrenderedMove))
     = [Draw 1 [mkPoint 50 0] "#FFFF00" 2; Draw 1 [mkPoint 50 0] "#FFFF00" 2].
Proof.
  split.
  - apply (proj1 (gesture_end_commits_once_per_render unrenderedMove)).
    vm_compute. repeat split; intro; reflexivity.
  - refine (eq_trans
      (proj2 (gesture_end_commits_once_per_render unrenderedMove)
         (Draw 1 [mkPoint 50 0] "#FFFF00" 2) _) _);
      vm_compute; reflexivity.
Defined.

(** ** Invariants of the annotation sequence *)

Lemma run_invariant (P : State -> Prop) :
  P initialState ->
  (forall s ev, P s -> P (dispatch s ev)) ->
  forall acts : list Action, P (component (run acts)).
Proof.
  intros Hinit Hstep acts. unfold run.
  assert (H : forall app, P (component app) -> P (component (fold_left perform acts app))).
  { induction acts as [|act acts IH]; intros app Happ; cbn [fold_left].
    - exact Happ.
    - apply IH. destruct act; cbn [perform component]; [apply Hstep|]; exact Happ. }
  apply H. exact Hinit.
Qed.

Lemma captureInvariant_dispatch (s : State) (ev : Event) :
  captureInvariant s -> captureInvariant (dispatch s ev).
Proof.
  unfold captureInvariant.
  destruct s as [cd ch dark tool anns drawing path info color open txt pos dims].
  cbn [annotations isDrawing currentPath]. intros [Hanns Hpath].
  destruct ev; cbn [dispatch handle].
  - unfold handleMouseDown. destruct overlay as [rect|]; [|split; assumption].
    cbn [currentTool]. destruct tool; cbn; split; try assumption; intros _; discriminate.
  - unfold handleMouseMove. destruct overlay as [rect|]; [|split; assumption].
    cbn [currentTool isDrawing highlightInfo].
    destruct tool; cbn [Tool_eqb andb]; try (split; assumption).
    + destruct drawing; cbn; split; try assumption.
      intros _ H. apply app_eq_nil in H. destruct H as [_ H]. discriminate H.
    + destruct info as [[start current]|]; cbn; split; assumption.
  - unfold handleMouseUp. cbn [currentTool isDrawing highlightInfo].
    destruct tool; cbn [Tool_eqb andb]; try (split; assumption).
    + destruct drawing; cbn; [|split; assumption].
      split; [|discriminate].
      apply Forall_app. split; [assumption|].
      constructor; [|constructor]. cbn. split; [apply Hpath|]; reflexivity.
    + destruct info as [[start current]|]; cbn; [|split; assumption].
      split; [|assumption].
      apply Forall_app. split; [assumption|]. constructor; [exact I|constructor].
  - unfold handleMouseUp. cbn [currentTool isDrawing highlightInfo].
    destruct tool; cbn [Tool_eqb andb]; try (split; assumption).
    + destruct drawing; cbn; [|split; assumption].
      split; [|discriminate].
      apply Forall_app. split; [assumption|].
      constructor; [|constructor]. cbn. split; [apply Hpath|]; reflexivity.
    + destruct info as [[start current]|]; cbn; [|split; assumption].
      split; [|assumption].
      apply Forall_app. split; [assumption|]. constructor; [exact I|constructor].
  - cbn. split; assumption.
  - cbn. split; assumption.
  - cbn. split; assumption.
  - cbn. split; [constructor|assumption].
  - cbn. split; assumption.
  - cbn. split; assumption.
  - unfold handleModalSubmit. cbn [modalText modalPosition].
    destruct txt as [|c txt]; cbn [truthy]; [split; assumption|].
    destruct pos as [position|]; cbn; [|split; assumption].
    split; [|assumption].
    apply Forall_app. split; [assumption|].
    constructor; [|constructor]. cbn. discriminate.
  - destruct iframe; cbn; split; assumption.
Qed.

(** X5. After any sequence of user actions every committed path has at
    least one point and stroke width 2, and every committed text note has
    a non-empty text. *)
Theorem committed_annotations_well_formed :
  forall acts : list Action,
    Forall wellFormed (annotations (component (run acts))).
Proof.
  intro acts.
  apply (run_invariant captureInvariant).
  - split; [constructor|discriminate].
  - apply captureInvariant_dispatch.
Qed.

(** X6. A user action leaves the committed sequence as it is, appends
    exactly one annotation at its end, or, for Clear All only, empties it;
    no committed annotation is ever changed or removed alone. *)
Theorem annotations_append_only :
  forall (app : App) (act : Action),
    annotations (component (perform app act)) = annotations (component app)
    \/ (exists a : Annotation,
          annotations (component (perform app act)) = annotations (component app) ++ [a])
    \/ (act = UI onClearAll /\ annotations (component (perform app act)) = []).
Proof.
  intros [s w] act. destruct act as [ev|env]; cbn [perform component]; [|left; reflexivity].
  destruct s as [cd ch dark tool anns drawing path info color open txt pos dims].
  destruct ev; cbn [dispatch handle].
  - left. apply handleMouseDown_annotations.
  - left. apply handleMouseMove_annotations.
  - unfold handleMouseUp. cbn [currentTool isDrawing highlightInfo].
    destruct tool; cbn [Tool_eqb andb]; try (left; reflexivity).
    + destruct drawing; cbn; [right; left; eexists; reflexivity|left; reflexivity].
    + destruct info as [[start current]|]; cbn;
        [right; left; eexists; reflexivity|left; reflexivity].
  - unfold handleMouseUp. cbn [currentTool isDrawing highlightInfo].
    destruct tool; cbn [Tool_eqb andb]; try (left; reflexivity).
    + destruct drawing; cbn; [right; left; eexists; reflexivity|left; reflexivity].
    + destruct info as [[start current]|]; cbn;
        [right; left; eexists; reflexivity|left; reflexivity].
  - left; reflexivity.
  - left; reflexivity.
  - left; reflexivity.
  - right; right. split; reflexivity.
  - left; reflexivity.
  - left; reflexivity.
  - unfold handleModalSubmit. cbn [modalText modalPosition].
    destruct txt as [|c txt]; cbn [truthy]; [left; reflexivity|].
    destruct pos as [position|]; cbn; [right; left; eexists; reflexivity|left; reflexivity].
  - left. destruct iframe; reflexivity.
Qed.

Lemma sound_snoc (l : list Annotation) (a : Annotation) :
  Forall sound l -> sound a -> Forall sound (l ++ [a]).
Proof.
  intros Hl Ha. apply Forall_app. split; [exact Hl|]. constructor; [exact Ha|constructor].
Qed.

Lemma handle_sound (closure s : State) (ev : Event) :
  (isDrawing closure = true -> currentPath closure <> []) ->
  Forall sound (annotations s) ->
  (isDrawing s = true -> currentPath s <> []) ->
  Forall sound (annotations (handle closure ev s))
  /\ (isDrawing (handle closure ev s) = true -> currentPath (handle closure ev s) <> []).
Proof.
  destruct closure as [cd ch dark tool anns drawing path info color open txt pos dims].
  destruct s as [cd' ch' dark' tool' anns' drawing' path' info' color' open' txt' pos' dims'].
  cbn [annotations isDrawing currentPath]. intros Hclosure Hanns Hpath.
  destruct ev; cbn [handle].
  - unfold handleMouseDown. destruct overlay as [rect|]; [|split; assumption].
    cbn [currentTool]. destruct tool; cbn; split; try assumption; intros _; discriminate.
  - unfold handleMouseMove. destruct overlay as [rect|]; [|split; assumption].
    cbn [currentTool isDrawing highlightInfo].
    destruct tool; cbn [Tool_eqb andb]; try (split; assumption).
    + destruct drawing; cbn; split; try assumption.
      intros _ H. apply app_eq_nil in H. destruct H as [_ H]. discriminate H.
    + destruct info as [[start current]|]; cbn; split; assumption.
  - unfold handleMouseUp. cbn [currentTool isDrawing highlightInfo currentPath annotationColor].
    destruct tool; cbn [Tool_eqb andb]; try (split; assumption).
    + destruct drawing; cbn; [|split; assumption].
      split; [|discriminate].
      apply sound_snoc; [assumption|]. split; [reflexivity|].
      cbn. split; [apply Hclosure|]; reflexivity.
    + destruct info as [[start current]|]; cbn; [|split; assumption].
      split; [|assumption].
      apply sound_snoc; [assumption|]. split; [reflexivity|exact I].
  - unfold handleMouseUp. cbn [currentTool isDrawing highlightInfo currentPath annotationColor].
    destruct tool; cbn [Tool_eqb andb]; try (split; assumption).
    + destruct drawing; cbn; [|split; assumption].
      split; [|discriminate].
      apply sound_snoc; [assumption|]. split; [reflexivity|].
      cbn. split; [apply Hclosure|]; reflexivity.
    + destruct info as [[start current]|]; cbn; [|split; assumption].
      split; [|assumption].
      apply sound_snoc; [assumption|]. split; [reflexivity|exact I].
  - cbn. split; assumption.
  - cbn. split; assumption.
  - cbn. split; assumption.
  - cbn. split; [constructor|assumption].
  - cbn. split; assumption.
  - cbn. split; assumption.
  - unfold handleModalSubmit. cbn [modalText modalPosition annotationColor].
    destruct txt as [|ch0 txt]; cbn [truthy]; [split; assumption|].
    destruct pos as [position|]; cbn; [|split; assumption].
    split; [|assumption].
    apply sound_snoc; [assumption|]. split; [reflexivity|]. cbn. discriminate.
  - destruct iframe; cbn; split; assumption.
Qed.

Lemma renderInvariant_react (c : Component) (st : Step) :
  renderInvariant c -> renderInvariant (react c st).
Proof.
  unfold renderInvariant. intros [Hr [Hp [Hrd Hpd]]].
  destruct st as [ev|]; cbn [react rendered pending].
  - destruct (handle_sound (rendered c) (pending c) ev Hrd Hp Hpd) as [H1 H2]. auto.
  - auto.
Qed.

(** X22. Whatever the order of events and renders from the first render,
    and so whatever stale values the handlers read, every annotation of
    the committed sequence, rendered or still pending, is on page 1, a
    path has at least one point and stroke width 2, and a text note has a
    non-empty text. *)
Theorem commits_are_sound_whatever_the_renders :
  forall steps : list Step,
    Forall sound (annotations (rendered (fold_left react steps (mounted initialState))))
    /\ Forall sound (annotations (pending (fold_left react steps (mounted initialState)))).
Proof.
  intro steps.
  assert (H : forall c, renderInvariant c -> renderInvariant (fold_left react steps c)).
  { induction steps as [|st steps IH]; intros c Hc; cbn [fold_left].
    - exact Hc.
    - apply IH, renderInvariant_react, Hc. }
  destruct (H (mounted initialState)) as [Hr [Hp _]].
  - unfold renderInvariant, mounted. cbn. repeat split; try constructor; discriminate.
  - split; assumption.
Qed.

(** ** The text dialog *)

(** X7. In text mode a click, a typed non-empty text and Add commit one
    text note at the clicked point with the current colour, close the
    dialog and clear its text and position; with an empty text Add does
    nothing and the dialog stays open. *)
Theorem text_note_flow :
  forall (s : State) (down : DOMRect * MouseEvent) (value : string),
    currentTool s = tool_text ->
    (truthy value = true ->
     annotations
       (fold_left dispatch
          [onMouseDown (Some (fst down)) (snd down); onModalTextChange value; onModalAdd] s)
     = annotations s ++ [Text 1 (pointOf down) value (annotationColor s)]
     /\ isModalOpen
          (fold_left dispatch
             [onMouseDown (Some (fst down)) (snd down); onModalTextChange value; onModalAdd] s)
        = false
     /\ modalText
          (fold_left dispatch
             [onMouseDown (Some (fst down)) (snd down); onModalTextChange value; onModalAdd] s)
        = ""
     /\ modalPosition
          (fold_left dispatch
             [onMouseDown (Some (fst down)) (snd down); onModalTextChange value; onModalAdd] s)
        = None)
    /\ (fold_left dispatch
          [onMouseDown (Some (fst down)) (snd down); onModalTextChange ""; onModalAdd] s
        = fold_left dispatch
            [onMouseDown (Some (fst down)) (snd down); onModalTextChange ""] s
        /\ isModalOpen
             (fold_left dispatch
                [onMouseDown (Some (fst down)) (snd down); onModalTextChange ""; onModalAdd] s)
           = true
        /\ annotations
             (fold_left dispatch
                [onMouseDown (Some (fst down)) (snd down); onModalTextChange ""; onModalAdd] s)
           = annotations s).
Proof.
  intros s down value Htool.
  destruct s as [cd ch dark tool anns drawing path info color open txt pos dims].
  cbn [currentTool] in Htool. subst tool.
  split.
  - intro Hvalue. destruct value as [|c value]; [discriminate Hvalue|].
    cbn. auto.
  - cbn. auto.
Qed.

Lemma text_note_flow_witness :
  annotations
    (fold_left dispatch
       [onMouseDown (Some (fst sampleDown)) (snd sampleDown); onModalTextChange "note";
        onModalAdd]
       (dispatch initialState (onToolClick tool_text)))
  = [Text 1 (mkPoint 50 0) "note" "#FFFF00"].
Proof.
  refine (eq_trans
    (proj1 (proj1 (text_note_flow (dispatch initialState (onToolClick tool_text))
                     sampleDown "note" _) _)) _);
    vm_compute; reflexivity.
Defined.

(** X8. Cancel closes the dialog without committing and keeps the typed
    text: the next click in text mode followed by Add commits that text at
    the new point. *)
Theorem cancel_keeps_the_draft :
  forall (s : State) (first second : DOMRect * MouseEvent) (value : string),
    currentTool s = tool_text ->
    truthy value = true ->
    annotations
      (fold_left dispatch
         [onMouseDown (Some (fst first)) (snd first); onModalTextChange value; onModalCancel] s)
    = annotations s
    /\ modalText
         (fold_left dispatch
            [onMouseDown (Some (fst first)) (snd first); onModalTextChange value; onModalCancel] s)
       = value
    /\ annotations
         (fold_left dispatch
            [onMouseDown (Some (fst first)) (snd first); onModalTextChange value; onModalCancel;
             onMouseDown (Some (fst second)) (snd second); onModalAdd] s)
       = annotations s ++ [Text 1 (pointOf second) value (annotationColor s)].
Proof.
  intros s first second value Htool Hvalue.
  destruct s as [cd ch dark tool anns drawing path info color open txt pos dims].
  cbn [currentTool] in Htool. subst tool.
  destruct value as [|c value]; [discriminate Hvalue|].
  cbn. auto.
Qed.

Lemma cancel_keeps_the_draft_witness :
  annotations
    (fold_left dispatch
       [onMouseDown (Some (fst sampleDown)) (snd sampleDown); onModalTextChange "note";
        onModalCancel;
        onMouseDown (Some sampleRect) (mkMouseEvent 150 100); onModalAdd]
       (dispatch initialState (onToolClick tool_text)))
  = [Text 1 (mkPoint 150 100) "note" "#FFFF00"].
Proof.
  refine (eq_trans
    (proj2 (proj2 (cancel_keeps_the_draft (dispatch initialState (onToolClick tool_text))
                     sampleDown (sampleRect, mkMouseEvent 150 100) "note" _ _))) _);
    vm_compute; reflexivity.
Defined.

Lemma dialogInvariant_dispatch (s : State) (ev : Event) :
  dialogInvariant s -> dialogInvariant (dispatch s ev).
Proof.
  unfold dialogInvariant.
  destruct s as [cd ch dark tool anns drawing path info color open txt pos dims].
  cbn [isModalOpen modalPosition]. intro H.
  destruct ev; cbn [dispatch handle]; try exact H.
  - unfold handleMouseDown. destruct overlay as [rect|]; [|exact H].
    cbn [currentTool]. destruct tool; cbn; try exact H. intros _. discriminate.
  - unfold handleMouseMove. destruct overlay as [rect|]; [|exact H].
    cbn [currentTool isDrawing highlightInfo].
    destruct tool; cbn [Tool_eqb andb]; try exact H.
    + destruct drawing; exact H.
    + destruct info as [[start current]|]; exact H.
  - unfold handleMouseUp. cbn [currentTool isDrawing highlightInfo].
    destruct tool; cbn [Tool_eqb andb]; try exact H.
    + destruct drawing; exact H.
    + destruct info as [[start current]|]; exact H.
  - unfold handleMouseUp. cbn [currentTool isDrawing highlightInfo].
    destruct tool; cbn [Tool_eqb andb]; try exact H.
    + destruct drawing; exact H.
    + destruct info as [[start current]|]; exact H.
  - cbn. discriminate.
  - unfold handleModalSubmit. cbn [modalText modalPosition].
    destruct txt as [|c txt]; cbn [truthy]; [exact H|].
    destruct pos as [position|]; cbn; [discriminate|exact H].
  - destruct iframe; exact H.
Qed.

(** X9. After any sequence of user actions, if the dialog is open it has a
    position, so Add with a non-empty text always commits exactly one text
    note. *)
Theorem open_dialog_confirms :
  forall acts : list Action,
    isModalOpen (component (run acts)) = true ->
    truthy (modalText (component (run acts))) = true ->
    exists position : Point,
      modalPosition (component (run acts)) = Some position
      /\ annotations (dispatch (component (run acts)) onModalAdd)
         = annotations (component (run acts))
           ++ [Text 1 position (modalText (component (run acts)))
                 (annotationColor (component (run acts)))].
Proof.
  intros acts Hopen Htext.
  pose proof (run_invariant dialogInvariant) as Hinv.
  assert (H : dialogInvariant (component (run acts))).
  { apply Hinv; [discriminate|apply dialogInvariant_dispatch]. }
  specialize (H Hopen).
  destruct (modalPosition (component (run acts))) as [position|] eqn:Hpos;
    [|exfalso; apply H; reflexivity].
  exists position. split; [reflexivity|].
  cbn [dispatch handle]. unfold handleModalSubmit. rewrite Htext, Hpos. reflexivity.
Qed.

Lemma open_dialog_confirms_witness :
  exists position : Point,
    modalPosition (component (run sampleDialogActs)) = Some position
    /\ annotations (dispatch (component (run sampleDialogActs)) onModalAdd)
       = annotations (component (run sampleDialogActs))
         ++ [Text 1 position (modalText (component (run sampleDialogActs)))
               (annotationColor (component (run sampleDialogActs)))].
Proof.
  apply (open_dialog_confirms sampleDialogActs); vm_compute; reflexivity.
Defined.

(** ** The export engine: order, pages and outcome *)

Lemma forEach_app (A S : Type) (f : A -> S -> result S) (l1 l2 : list A) :
  forall s : S, forEach f (l1 ++ l2) s = and_then (forEach f l1 s) (forEach f l2).
Proof.
  induction l1 as [|a l1 IH]; intro s; cbn [app forEach].
  - reflexivity.
  - destruct (f a s) as [s'|e]; cbn [and_then]; [apply IH|reflexivity].
Qed.

Lemma draw_all_app (env : Env) (ops1 ops2 : list DrawOp) (pg : PDFPage) :
  draw_all env (ops1 ++ ops2) pg = and_then (draw_all env ops1 pg) (draw_all env ops2).
Proof.
  apply forEach_app.
Qed.

Lemma drawAnnotation_ops (env : Env)
    (overlayWidth overlayHeight pdfWidth pdfHeight scale : float)
    (annotation : Annotation) (pg : PDFPage) :
  drawAnnotation env overlayWidth overlayHeight pdfWidth pdfHeight scale annotation pg
  = draw_all env
      (annotationOps overlayWidth overlayHeight pdfWidth pdfHeight scale annotation) pg.
Proof.
  destruct annotation as [p start end_ color|p points color width|p position text color].
  - cbn [drawAnnotation annotationOps]. unfold draw_all. cbn [forEach].
    destruct (page_draw env _ pg); reflexivity.
  - apply drawAnnotation_Draw.
  - cbn [drawAnnotation annotationOps]. unfold draw_all. cbn [forEach].
    destruct (page_draw env _ pg); reflexivity.
Qed.

Lemma forEach_drawAnnotation (env : Env)
    (overlayWidth overlayHeight pdfWidth pdfHeight scale : float)
    (annotations : list Annotation) :
  forall pg : PDFPage,
    forEach (drawAnnotation env overlayWidth overlayHeight pdfWidth pdfHeight scale)
      annotations pg
    = draw_all env
        (flat_map (annotationOps overlayWidth overlayHeight pdfWidth pdfHeight scale)
           annotations) pg.
Proof.
  induction annotations as [|a annotations IH]; intro pg; cbn [forEach flat_map].
  - reflexivity.
  - rewrite draw_all_app, drawAnnotation_ops.
    destruct (draw_all env _ pg) as [pg'|e]; cbn [and_then]; [apply IH|reflexivity].
Qed.

(** X10. The export draws the annotations in sequence order: exporting two
    sequences one after the other is exporting their concatenation, the
    calls made are those of each annotation in turn (one rectangle per
    highlight, one text per note, the segments of each path) until one is
    rejected, and when none is the page records exactly these after what
    it held. *)
Theorem export_draws_in_sequence_order :
  forall (env : Env) (overlayWidth overlayHeight pdfWidth pdfHeight scale : float)
         (before after : list Annotation) (pg : PDFPage),
    forEach (drawAnnotation env overlayWidth overlayHeight pdfWidth pdfHeight scale)
      (before ++ after) pg
    = and_then
        (forEach (drawAnnotation env overlayWidth overlayHeight pdfWidth pdfHeight scale)
           before pg)
        (forEach (drawAnnotation env overlayWidth overlayHeight pdfWidth pdfHeight scale)
           after)
    /\ forEach (drawAnnotation env overlayWidth overlayHeight pdfWidth pdfHeight scale)
         (before ++ after) pg
       = draw_all env
           (flat_map (annotationOps overlayWidth overlayHeight pdfWidth pdfHeight scale) before
            ++ flat_map (annotationOps overlayWidth overlayHeight pdfWidth pdfHeight scale) after)
           pg
    /\ ((forall pg' op, draw_rejected env pg' op = None) ->
        forEach (drawAnnotation env overlayWidth overlayHeight pdfWidth pdfHeight scale)
          (before ++ after) pg
        = Ok {| page_width := page_width pg;
                page_height := page_height pg;
                content :=
                  content pg
                  ++ flat_map (annotationOps overlayWidth overlayHeight pdfWidth pdfHeight scale)
                       before
                  ++ flat_map (annotationOps overlayWidth overlayHeight pdfWidth pdfHeight scale)
                       after |}).
Proof.
  intros. split.
  - apply forEach_app.
  - split.
    + rewrite forEach_drawAnnotation, flat_map_app. reflexivity.
    + intro Hacc. rewrite forEach_drawAnnotation, flat_map_app.
      apply draw_all_accepted, Hacc.
Qed.

Lemma export_draws_in_sequence_order_witness :
  forEach (drawAnnotation friendlyEnv 200 100 100 100 1)
    ([Highlight 1 (mkPoint 50 0) (mkPoint 150 100) "#FF0000"]
     ++ [Text 1 (mkPoint 100 50) "note" "#000000"])
    (mkPDFPage 100 100 [])
  = Ok (mkPDFPage 100 100
          [drawRectangle 0 0 100 100 (rgb 1 0 0) 0.35;
           drawText "note" 50 50 6 (rgb 0 0 0)]).
Proof.
  refine (eq_trans
    (proj2 (proj2 (export_draws_in_sequence_order friendlyEnv 200 100 100 100 1
       [Highlight 1 (mkPoint 50 0) (mkPoint 150 100) "#FF0000"]
       [Text 1 (mkPoint 100 50) "note" "#000000"] (mkPDFPage 100 100 []))) _) _).
  - intros pg' op. reflexivity.
  - vm_compute. reflexivity.
Defined.

Lemma page_draw_keeps (env : Env) (op : DrawOp) (pg pg' : PDFPage) :
  page_draw env op pg = Ok pg' ->
  page_width pg' = page_width pg /\ page_height pg' = page_height pg
  /\ content pg' = content pg ++ [op].
Proof.
  unfold page_draw. destruct (draw_rejected env pg op); intro H; [discriminate H|].
  injection H as <-. auto.
Qed.

Lemma draw_all_keeps (env : Env) (ops : list DrawOp) :
  forall pg pg' : PDFPage,
    draw_all env ops pg = Ok pg' ->
    page_width pg' = page_width pg /\ page_height pg' = page_height pg
    /\ content pg' = content pg ++ ops.
Proof.
  unfold draw_all. induction ops as [|op ops IH]; intros pg pg' H; cbn [forEach] in H.
  - injection H as <-. rewrite app_nil_r. auto.
  - destruct (page_draw env op pg) as [pg1|e] eqn:H1; cbn [and_then] in H; [|discriminate H].
    apply page_draw_keeps in H1. destruct H1 as [Hw [Hh Hc]].
    destruct (IH _ _ H) as [Iw [Ih Ic]].
    rewrite Iw, Ih, Ic, Hw, Hh, Hc, <- app_assoc. auto.
Qed.

(** X11. A document the export has annotated differs from the loaded one
    on its first page only: the other pages are the same, the first page
    keeps its size and what it held, followed by the calls of the
    annotations, projected with the scale [min(overlayWidth / pdfWidth,
    overlayHeight / pdfHeight)]. *)
Theorem export_touches_first_page_only :
  forall (env : Env) (overlayWidth overlayHeight : float) (annotations : list Annotation)
         (annotated : PDFDocument),
    annotatedDocument env overlayWidth overlayHeight annotations = Ok annotated ->
    exists (bytes : list Byte.byte) (pdfDoc : PDFDocument) (pg pg' : PDFPage)
           (others : list PDFPage),
      fetch_arrayBuffer env = Ok bytes
      /\ PDFDocument_load env bytes = Ok pdfDoc
      /\ getPages pdfDoc = pg :: others
      /\ getPages annotated = pg' :: others
      /\ page_width pg' = page_width pg
      /\ page_height pg' = page_height pg
      /\ content pg'
         = content pg
           ++ flat_map
                (annotationOps overlayWidth overlayHeight (page_width pg) (page_height pg)
                   (JS.Math_min (overlayWidth / page_width pg) (overlayHeight / page_height pg)))
                annotations.
Proof.
  intros env ow oh annotations annotated H. unfold annotatedDocument in H.
  destruct (fetch_arrayBuffer env) as [bytes|e]; cbn [and_then] in H; [|discriminate H].
  destruct (PDFDocument_load env bytes) as [pdfDoc|e] eqn:Hload; cbn [and_then] in H;
    [|discriminate H].
  destruct (getPages pdfDoc) as [|pg others] eqn:Hpages; [discriminate H|].
  rewrite forEach_drawAnnotation in H.
  destruct (draw_all env _ pg) as [pg'|e] eqn:Hdraw; cbn [and_then] in H; [|discriminate H].
  injection H as <-.
  apply draw_all_keeps in Hdraw. destruct Hdraw as [Hw [Hh Hc]].
  exists bytes, pdfDoc, pg, pg', others. cbn [getPages]. auto 10.
Qed.

Lemma export_touches_first_page_only_witness :
  exists (bytes : list Byte.byte) (pdfDoc : PDFDocument) (pg pg' : PDFPage)
         (others : list PDFPage),
    fetch_arrayBuffer friendlyEnv = Ok bytes
    /\ PDFDocument_load friendlyEnv bytes = Ok pdfDoc
    /\ getPages pdfDoc = pg :: others
    /\ getPages
         {| getPages :=
              [mkPDFPage 100 100
                 [drawRectangle 0 0 100 100 (rgb 1 0 0) 0.35;
                  drawText "note" 50 50 6 (rgb 0 0 0)]] |}
       = pg' :: others
    /\ page_width pg' = page_width pg
    /\ page_height pg' = page_height pg
    /\ content pg'
       = content pg
         ++ flat_map
              (annotationOps 200 100 (page_width pg) (page_height pg)
                 (JS.Math_min (200 / page_width pg) (100 / page_height pg)))
              sampleAnnotations.
Proof.
  apply (export_touches_first_page_only friendlyEnv 200 100 sampleAnnotations).
  vm_compute. reflexivity.
Defined.

(** X12. When the overlay is mounted, the annotated document is built and
    its serialization succeeds, the export hands out exactly one file,
    named [annotated-document.pdf] and holding the serialized bytes, and
    writes nothing on the console. *)
Theorem export_success_downloads_once :
  forall (env : Env) (annotations : list Annotation) (w : World)
         (overlayWidth overlayHeight : float) (annotated : PDFDocument)
         (pdfBytes : list Byte.byte),
    overlayRef env = Some (overlayWidth, overlayHeight) ->
    annotatedDocument env overlayWidth overlayHeight annotations = Ok annotated ->
    PDFDocument_save env annotated = Ok pdfBytes ->
    downloadAnnotatedPDF env annotations w
    = (Ok tt,
       {| console := console w;
          downloads := downloads w ++ [("annotated-document.pdf", pdfBytes)] |}).
Proof.
  intros env annotations w ow oh annotated pdfBytes Hov Hdoc Hsave.
  unfold downloadAnnotatedPDF, try_catch, bind, lift, save_as.
  rewrite Hov, Hdoc, Hsave. reflexivity.
Qed.

Lemma export_success_downloads_once_witness :
  downloadAnnotatedPDF friendlyEnv [] (world initialApp)
  = (Ok tt, {| console := []; downloads := [("annotated-document.pdf", [])] |}).
Proof.
  refine (export_success_downloads_once friendlyEnv [] (world initialApp) 200 100
            {| getPages := [mkPDFPage 100 100 []] |} [] _ _ _);
    vm_compute; reflexivity.
Defined.

(** X13. After Clear All the export draws nothing: the document handed to
    the serializer is the loaded document itself, and its bytes are what
    is downloaded. *)
Theorem export_after_clear_all :
  forall (env : Env) (app : App) (overlayWidth overlayHeight : float)
         (bytes : list Byte.byte) (pdfDoc : PDFDocument) (pdfBytes : list Byte.byte),
    overlayRef env = Some (overlayWidth, overlayHeight) ->
    fetch_arrayBuffer env = Ok bytes ->
    PDFDocument_load env bytes = Ok pdfDoc ->
    getPages pdfDoc <> [] ->
    PDFDocument_save env pdfDoc = Ok pdfBytes ->
    annotations (component (perform app (UI onClearAll))) = []
    /\ annotatedDocument env overlayWidth overlayHeight [] = Ok pdfDoc
    /\ world (perform (perform app (UI onClearAll)) (onDownloadClick env))
       = {| console := console (world app);
            downloads := downloads (world app) ++ [("annotated-document.pdf", pdfBytes)] |}.
Proof.
  intros env app ow oh bytes pdfDoc pdfBytes Hov Hfetch Hload Hpages Hsave.
  assert (Hdoc : annotatedDocument env ow oh [] = Ok pdfDoc).
  { unfold annotatedDocument. rewrite Hfetch. cbn [and_then]. rewrite Hload. cbn [and_then].
    destruct pdfDoc as [pages]. cbn [getPages] in *.
    destruct pages as [|pg others]; [contradiction Hpages; reflexivity|]. reflexivity. }
  split; [reflexivity|]. split; [exact Hdoc|].
  cbn [perform component world dispatch handle annotations setAnnotations].
  unfold downloadAnnotatedPDF, try_catch, bind, lift, save_as.
  rewrite Hov, Hdoc, Hsave. reflexivity.
Qed.

Lemma export_after_clear_all_witness :
  world
    (perform
       (perform
          (run [UI (onMouseDown (Some sampleRect) (mkMouseEvent 50 0)); UI onMouseUp])
          (UI onClearAll))
       (onDownloadClick friendlyEnv))
  = {| console := []; downloads := [("annotated-document.pdf", [])] |}.
Proof.
  refine (eq_trans
    (proj2 (proj2 (export_after_clear_all friendlyEnv
       (run [UI (onMouseDown (Some sampleRect) (mkMouseEvent 50 0)); UI onMouseUp])
       200 100 [] {| getPages := [mkPDFPage 100 100 []] |} [] _ _ _ _ _))) _);
    try (vm_compute; reflexivity).
  discriminate.
Defined.

(** X14. Whatever the collaborators do, a call of the export completes
    normally and leaves at most one trace: nothing, or one downloaded file
    named [annotated-document.pdf], or one line on the console; what the
    console and the downloads held before is kept. *)
Theorem export_leaves_one_trace :
  forall (env : Env) (annotations : list Annotation) (w : World),
    fst (downloadAnnotatedPDF env annotations w) = Ok tt
    /\ (snd (downloadAnnotatedPDF env annotations w) = w
        \/ (exists pdfBytes : list Byte.byte,
              snd (downloadAnnotatedPDF env annotations w)
              = {| console := console w;
                   downloads := downloads w ++ [("annotated-document.pdf", pdfBytes)] |})
        \/ (exists e : Error,
              snd (downloadAnnotatedPDF env annotations w)
              = {| console := console w ++ [e]; downloads := downloads w |})).
Proof.
  intros env annotations w.
  unfold downloadAnnotatedPDF, try_catch, bind, lift, ret, console_error, save_as.
  destruct (overlayRef env) as [[ow oh]|]; [|split; [reflexivity|left; reflexivity]].
  destruct (annotatedDocument env ow oh annotations) as [annotated|e].
  - destruct (PDFDocument_save env annotated) as [pdfBytes|e]; cbn.
    + split; [reflexivity|]. right. left. exists pdfBytes. reflexivity.
    + split; [reflexivity|]. right. right. exists e. reflexivity.
  - cbn. split; [reflexivity|]. right. right. exists e. reflexivity.
Qed.

(** ** Colour strings *)

Lemma remove_first_absent (c : ascii) (s : string) :
  contains c s = false -> JSString.remove_first c s = s.
Proof.
  induction s as [|d s IH]; cbn [contains JSString.remove_first]; intro H.
  - reflexivity.
  - apply orb_false_elim in H. destruct H as [Hd Hs]. rewrite Hd, (IH Hs). reflexivity.
Qed.

Lemma remove_first_present (c : ascii) (s1 s2 : string) :
  contains c s1 = false ->
  JSString.remove_first c (s1 ++ String c s2)%string = (s1 ++ s2)%string.
Proof.
  induction s1 as [|d s1 IH]; cbn [contains JSString.remove_first String.append]; intro H.
  - rewrite Ascii.eqb_refl. reflexivity.
  - apply orb_false_elim in H. destruct H as [Hd Hs]. rewrite Hd, (IH Hs). reflexivity.
Qed.

Lemma contains_app (c : ascii) (s1 s2 : string) :
  contains c (s1 ++ s2)%string = contains c s1 || contains c s2.
Proof.
  induction s1 as [|d s1 IH]; cbn [contains String.append].
  - reflexivity.
  - rewrite IH, orb_assoc. reflexivity.
Qed.

(** X15. [hexToRgb] removes the first [#] wherever it stands, not only in
    front: the channels are read from the string without it, so a string
    with one [#] gives the colour of the same string without [#]. *)
Theorem hexToRgb_hash_is_optional :
  forall s1 s2 : string,
    contains "#" s1 = false ->
    hexToRgb (s1 ++ String "#" s2)%string
    = {| r := JSString.parseInt16 (JSString.substring 0 2 (s1 ++ s2)%string) / 255;
         g := JSString.parseInt16 (JSString.substring 2 4 (s1 ++ s2)%string) / 255;
         b := JSString.parseInt16 (JSString.substring 4 6 (s1 ++ s2)%string) / 255 |}
    /\ (contains "#" s2 = false ->
        hexToRgb (s1 ++ String "#" s2)%string = hexToRgb (s1 ++ s2)%string).
Proof.
  intros s1 s2 H1. unfold hexToRgb.
  rewrite (remove_first_present "#" s1 s2 H1).
  split; [reflexivity|].
  intro H2. rewrite remove_first_absent; [reflexivity|].
  rewrite contains_app, H1, H2. reflexivity.
Qed.

Lemma hexToRgb_hash_is_optional_witness :
  hexToRgb "FF#0000" = hexToRgb "FF0000".
Proof.
  refine (proj2 (hexToRgb_hash_is_optional "FF" "0000" _) _); reflexivity.
Defined.

Lemma substring_beyond (s : string) :
  forall n m : nat, (String.length s <= n)%nat -> String.substring n m s = "".
Proof.
  induction s as [|c s IH]; intros n m H.
  - destruct n, m; reflexivity.
  - destruct n as [|n]; [cbn in H; lia|].
    cbn [String.substring]. apply IH. cbn in H. lia.
Qed.

(** X16. Short colour strings are not expanded: with at most four
    characters besides the [#] (the three-digit form [#RGB] for one) the
    blue channel is [NaN]; with at most two the green channel is [NaN]
    too; with none the red channel as well. *)
Theorem hexToRgb_short_string :
  forall hex : string,
    (String.length (JSString.remove_first "#" hex) <= 4)%nat ->
    b (hexToRgb hex) = nan
    /\ ((String.length (JSString.remove_first "#" hex) <= 2)%nat -> g (hexToRgb hex) = nan)
    /\ (String.length (JSString.remove_first "#" hex) = 0%nat -> r (hexToRgb hex) = nan).
Proof.
  intros hex H4. unfold hexToRgb. cbn [r g b]. unfold JSString.substring.
  cbn [Nat.min Nat.max Nat.sub].
  split; [|split].
  - rewrite (substring_beyond _ 4 2 H4). vm_compute. reflexivity.
  - intro H2. rewrite (substring_beyond _ 2 2 H2). vm_compute. reflexivity.
  - intro H0. rewrite (substring_beyond _ 0 2); [vm_compute; reflexivity|lia].
Qed.

Lemma hexToRgb_short_string_witness :
  b (hexToRgb "#F00") = nan.
Proof.
  refine (proj1 (hexToRgb_short_string "#F00" _)).
  vm_compute. repeat constructor.
Defined.

(** X17. What follows the six digits of a canonical colour is ignored: an
    eight-digit [#RRGGBBAA] string gives the colour of its first six
    digits. *)
Theorem hexToRgb_ignores_suffix :
  forall hex suffix : string,
    canonical_color hex = true ->
    hexToRgb (hex ++ suffix)%string = hexToRgb hex.
Proof.
  intros hex suffix Hcanon.
  destruct hex as [|h hex]; [discriminate Hcanon|].
  assert (Hh : h = "#"%char).
  { destruct h as [[] [] [] [] [] [] [] []]; try discriminate Hcanon; reflexivity. }
  subst h.
  destruct hex as [|r1 [|r2 [|g1 [|g2 [|b1 [|b2 [|extra hex]]]]]]];
    try discriminate Hcanon.
  unfold hexToRgb. cbn [String.append JSString.remove_first Ascii.eqb Bool.eqb].
  unfold JSString.substring. cbn [Nat.min Nat.max Nat.sub String.substring].
  destruct suffix; reflexivity.
Qed.

Lemma hexToRgb_ignores_suffix_witness :
  hexToRgb "#FF000080" = hexToRgb "#FF0000".
Proof.
  refine (hexToRgb_ignores_suffix "#FF0000" "80" _). reflexivity.
Defined.

Lemma upper_hex_digit (c : ascii) : JSString.hex_digit (upper c) = JSString.hex_digit c.
Proof. destruct c as [[] [] [] [] [] [] [] []]; reflexivity. Qed.

Lemma upper_white_space (c : ascii) :
  JSString.is_white_space (upper c) = JSString.is_white_space c.
Proof. destruct c as [[] [] [] [] [] [] [] []]; reflexivity. Qed.

Lemma upper_hash (c : ascii) : Ascii.eqb (upper c) "#" = Ascii.eqb c "#".
Proof. destruct c as [[] [] [] [] [] [] [] []]; reflexivity. Qed.

Lemma toUpperCase_remove_first (s : string) :
  JSString.remove_first "#" (toUpperCase s) = toUpperCase (JSString.remove_first "#" s).
Proof.
  induction s as [|c s IH]; cbn [toUpperCase JSString.remove_first].
  - reflexivity.
  - rewrite upper_hash. destruct (Ascii.eqb c "#"); [reflexivity|].
    cbn [toUpperCase]. rewrite IH. reflexivity.
Qed.

Lemma toUpperCase_substring (s : string) :
  forall n m : nat,
    String.substring n m (toUpperCase s) = toUpperCase (String.substring n m s).
Proof.
  induction s as [|c s IH]; intros n m.
  - destruct n, m; reflexivity.
  - destruct n as [|n].
    + destruct m as [|m]; [reflexivity|].
      cbn [toUpperCase String.substring]. rewrite IH. reflexivity.
    + cbn [toUpperCase String.substring]. apply IH.
Qed.

Lemma toUpperCase_hex_prefix (s : string) :
  forall acc : option Z,
    JSString.hex_prefix (toUpperCase s) acc = JSString.hex_prefix s acc.
Proof.
  induction s as [|c s IH]; intro acc; cbn [toUpperCase JSString.hex_prefix].
  - reflexivity.
  - rewrite upper_hex_digit. destruct (JSString.hex_digit c); [apply IH|reflexivity].
Qed.

Lemma toUpperCase_trim_start (s : string) :
  JSString.trim_start (toUpperCase s) = toUpperCase (JSString.trim_start s).
Proof.
  induction s as [|c s IH]; cbn [toUpperCase JSString.trim_start].
  - reflexivity.
  - rewrite upper_white_space. destruct (JSString.is_white_space c); [apply IH|reflexivity].
Qed.

Lemma toUpperCase_unprefixed (s : string) :
  JSString.hex_prefix (unprefixed (toUpperCase s)) None
  = JSString.hex_prefix (unprefixed s) None.
Proof.
  destruct s as [|c1 s]; [reflexivity|].
  destruct c1 as [[] [] [] [] [] [] [] []];
    try (match goal with
         | |- context [unprefixed (String ?c s)] =>
             exact (toUpperCase_hex_prefix (String c s) None)
         end).
  destruct s as [|c2 s]; [reflexivity|].
  destruct c2 as [[] [] [] [] [] [] [] []];
    try (match goal with
         | |- context [unprefixed (String ?c (String ?d s))] =>
             exact (toUpperCase_hex_prefix (String c (String d s)) None)
         end);
    exact (toUpperCase_hex_prefix s None).
Qed.

Lemma toUpperCase_parseInt16 (s : string) :
  JSString.parseInt16 (toUpperCase s) = JSString.parseInt16 s.
Proof.
  assert (Hdigits : forall t negative,
    match JSString.hex_prefix (unprefixed (toUpperCase t)) None with
    | Some n => if negative : bool then (- JS.of_Z n)%float else JS.of_Z n
    | None => nan
    end
    = match JSString.hex_prefix (unprefixed t) None with
      | Some n => if negative then (- JS.of_Z n)%float else JS.of_Z n
      | None => nan
      end).
  { intros t negative. rewrite toUpperCase_unprefixed. reflexivity. }
  unfold JSString.parseInt16. rewrite toUpperCase_trim_start.
  destruct (JSString.trim_start s) as [|c t]; [reflexivity|].
  destruct c as [[] [] [] [] [] [] [] []];
    try (match goal with
         | |- context [toUpperCase (String ?c t)] =>
             exact (Hdigits (String c t) false)
         end);
    try exact (Hdigits t true); exact (Hdigits t false).
Qed.

(** X18. [hexToRgb] does not depend on the case of the letters: for every
    string, the string with its letters [a] to [z] upper-cased gives the
    same three channels. *)
Theorem hexToRgb_ignores_case :
  forall hex : string, hexToRgb (toUpperCase hex) = hexToRgb hex.
Proof.
  intro hex. unfold hexToRgb, JSString.substring.
  rewrite toUpperCase_remove_first, !toUpperCase_substring, !toUpperCase_parseInt16.
  reflexivity.
Qed.

(** ** The projector and the highlight box *)

Lemma Math_abs_not_negative (a : float) : (JS.Math_abs a <? 0) = false.
Proof.
  unfold JS.Math_abs. rewrite ltb_spec, abs_spec.
  change (Prim2SF 0) with (S754_zero false).
  destruct (Prim2SF a); reflexivity.
Qed.

(** X19. For a viewport of positive finite size, at most one axis is
    letterboxed: when the viewport is relatively wider than the page the
    rendered height is the viewport height and the vertical offset is 0,
    otherwise the rendered width is the viewport width and the horizontal
    offset is 0. *)
Theorem one_axis_is_letterboxed :
  forall overlayWidth overlayHeight pdfWidth pdfHeight : float,
    positive_finite overlayWidth = true ->
    positive_finite overlayHeight = true ->
    (JS.gt (overlayWidth / overlayHeight) (pdfWidth / pdfHeight) = true
     /\ scaledHeight overlayWidth overlayHeight pdfWidth pdfHeight = overlayHeight
     /\ offsetY overlayWidth overlayHeight pdfWidth pdfHeight = 0)
    \/ (JS.gt (overlayWidth / overlayHeight) (pdfWidth / pdfHeight) = false
        /\ scaledWidth overlayWidth overlayHeight pdfWidth pdfHeight = overlayWidth
        /\ offsetX overlayWidth overlayHeight pdfWidth pdfHeight = 0).
Proof.
  intros ow oh pw ph How Hoh.
  unfold offsetX, offsetY, scaledWidth, scaledHeight, scaledSize.
  destruct (JS.gt (ow / oh) (pw / ph)); cbn [fst snd]; [left|right];
    (split; [reflexivity|]); (split; [reflexivity|]).
  - rewrite (sub_diag oh Hoh). vm_compute. reflexivity.
  - rewrite (sub_diag ow How). vm_compute. reflexivity.
Qed.

Lemma one_axis_is_letterboxed_witness :
  (JS.gt (200 / 100) (100 / 100) = true
   /\ scaledHeight 200 100 100 100 = 100
   /\ offsetY 200 100 100 100 = 0)
  \/ (JS.gt (200 / 100) (100 / 100) = false
      /\ scaledWidth 200 100 100 100 = 200
      /\ offsetX 200 100 100 100 = 0).
Proof.
  apply (one_axis_is_letterboxed 200 100 100 100); vm_compute; reflexivity.
Defined.

(** X20. The scale multiplies the projected coordinates: for a viewport and
    a page of equal aspect ratios (positive finite sizes, rendered height
    computed as the viewport height), the bottom-right corner of the
    viewport is projected to [(documentWidth * scale, documentHeight -
    documentHeight * scale)]. With the export's scale for a viewport twice
    the page, (200, 100) goes to (200, -50) on a 100 by 50 page. *)
Theorem scale_multiplies_the_corner :
  forall viewportWidth viewportHeight documentWidth documentHeight scale : float,
    positive_finite viewportWidth = true ->
    positive_finite viewportHeight = true ->
    positive_finite documentWidth = true ->
    positive_finite documentHeight = true ->
    viewportWidth / viewportHeight = documentWidth / documentHeight ->
    viewportWidth / (documentWidth / documentHeight) = viewportHeight ->
    transformCoordinates (mkPoint viewportWidth viewportHeight)
      viewportWidth viewportHeight documentWidth documentHeight (Some scale)
    = {| x := documentWidth * scale; y := documentHeight - documentHeight * scale |}.
Proof.
  intros vw vh dw dh k Hvw Hvh Hdw Hdh Haspect Hheight.
  assert (Hsize : scaledSize vw vh dw dh = (vw, vh)).
  { unfold scaledSize, JS.gt. rewrite Haspect, ltb_irrefl, Hheight. reflexivity. }
  unfold transformCoordinates, scaledWidth, scaledHeight.
  rewrite Hsize. cbn [fst snd x y].
  rewrite (sub_diag vw Hvw), (sub_diag vh Hvh).
  replace (0 / 2) with 0 by (vm_compute; reflexivity).
  rewrite (sub_zero vw Hvw), (sub_zero vh Hvh).
  rewrite (div_diag vw Hvw), (div_diag vh Hvh).
  rewrite (one_mul dw Hdw), (one_mul dh Hdh). reflexivity.
Qed.

Lemma scale_multiplies_the_corner_witness :
  JS.Math_min (200 / 100) (100 / 50) = 2
  /\ transformCoordinates (mkPoint 200 100) 200 100 100 50 (Some 2)
     = {| x := 200; y := -50 |}.
Proof.
  split; [vm_compute; reflexivity|].
  refine (eq_trans (scale_multiplies_the_corner 200 100 100 50 2 _ _ _ _ _ _) _);
    vm_compute; reflexivity.
Defined.

(** X21. The box drawn on screen for a committed highlight does not depend
    on the order of its corners, and neither its width and height nor
    those of the exported rectangle are ever negative. *)
Theorem highlight_box_geometry :
  forall (start end_ : Point) (color : string)
         (overlayWidth overlayHeight pdfWidth pdfHeight scale : float),
    highlightStyle start end_ color = highlightStyle end_ start color
    /\ (BoxStyle.width (highlightStyle start end_ color) <? 0) = false
    /\ (BoxStyle.height (highlightStyle start end_ color) <? 0) = false
    /\ exists rx ry rwidth rheight c,
         highlightRectangle overlayWidth overlayHeight pdfWidth pdfHeight scale
           start end_ color
         = drawRectangle rx ry rwidth rheight c 0.35
         /\ (rwidth <? 0) = false /\ (rheight <? 0) = false.
Proof.
  intros start end_ color ow oh pw ph k.
  split.
  { unfold highlightStyle.
    rewrite (Math_min_comm (x start) (x end_)), (Math_min_comm (y start) (y end_)).
    rewrite (Math_abs_sub_swap (x end_) (x start)), (Math_abs_sub_swap (y end_) (y start)).
    reflexivity. }
  split; [apply Math_abs_not_negative|].
  split; [apply Math_abs_not_negative|].
  unfold highlightRectangle. do 5 eexists.
  split; [reflexivity|]. split; apply Math_abs_not_negative.
Qed.
